(** * Transaction-manager configuration surface of kroma

    A shallow embedding of [utils/service/txmgr/cli.go] and
    [utils/service/util.go]: the CLI flag table, the [CLIConfig] validation,
    the construction of [Config], the environment-variable screen and the
    address parser; followed by a model of the submission loop that reads
    [Config], written from its design document.

    Go's [uint64] is [N] and [time.Duration] is [Z]: the code only compares
    these values with zero and copies them, so no wrap-around is involved.
    A Go string is a sequence of bytes, a [string] here. A result pair
    (value, error) keeps its shape, with [None] for a nil error. *)

From stdpp Require Import base decidable option list strings gmap.
From Stdlib Require Import Ascii String ZArith NArith Lia.

Local Open Scope string_scope.

(** ** Go errors

    [errors.New] and a [fmt.Errorf] without the wrapping verb give an error that
    only carries its message; [fmt.Errorf] with the wrapping verb keeps the
    error it was given and puts its own text in front of that error's
    message. *)

Inductive error : Type :=
| errors_New (msg : string)
| fmt_Errorf_w (text : string) (wrapped : error).

Fixpoint Error (e : error) : string :=
  match e with
  | errors_New msg => msg
  | fmt_Errorf_w text wrapped => text ++ Error wrapped
  end.

Definition Unwrap (e : error) : option error :=
  match e with
  | errors_New _ => None
  | fmt_Errorf_w _ wrapped => Some wrapped
  end.

#[global] Instance error_eq_dec : EqDecision error.
Proof. solve_decision. Defined.

(** ** [utils/service]: [PrefixEnvVar] *)

Definition PrefixEnvVar (prefix suffix : string) : string :=
  prefix ++ "_" ++ suffix.

(** ** [txmgr] flag names *)

Definition L1RPCFlagName : string := "l1-eth-rpc".
Definition MnemonicFlagName : string := "mnemonic".
Definition HDPathFlagName : string := "hd-path".
Definition PrivateKeyFlagName : string := "private-key".
Definition NumConfirmationsFlagName : string := "num-confirmations".
Definition SafeAbortNonceTooLowCountFlagName : string :=
  "safe-abort-nonce-too-low-count".
Definition ResubmissionTimeoutFlagName : string := "resubmission-timeout".
Definition NetworkTimeoutFlagName : string := "network-timeout".
Definition TxSendTimeoutFlagName : string := "txmgr.send-timeout".
Definition TxNotInMempoolTimeoutFlagName : string :=
  "txmgr.not-in-mempool-timeout".
Definition ReceiptQueryIntervalFlagName : string :=
  "txmgr.receipt-query-interval".
Definition BufferSizeFlagName : string := "txmgr.buffer-size".

(** ** [urfave/cli]: flags and the parsed command line

    Each flag kind is a struct with a name, a usage text, an environment
    variable and a default value; a string flag declared without a value has
    the empty string. A [cli.Context] answers the typed global lookups. *)

Inductive Flag : Type :=
| StringFlag (Name Usage EnvVar : string) (Value : string)
| Uint64Flag (Name Usage EnvVar : string) (Value : N)
| DurationFlag (Name Usage EnvVar : string) (Value : Z).

Definition flag_Name (f : Flag) : string :=
  match f with
  | StringFlag n _ _ _ | Uint64Flag n _ _ _ | DurationFlag n _ _ _ => n
  end.

Definition flag_EnvVar (f : Flag) : string :=
  match f with
  | StringFlag _ _ e _ | Uint64Flag _ _ e _ | DurationFlag _ _ e _ => e
  end.

Record Context : Type := mkContext {
  GlobalString : string -> string;
  GlobalUint64 : string -> N;
  GlobalDuration : string -> Z;
}.

(** ** The signer client package

    [client.CLIConfig], its [Check], [client.CLIFlags] and
    [client.ReadCLIConfig] live in [utils/signer/client], outside these
    sources; the transaction manager only calls these three functions, so the
    configuration type stays abstract behind them. *)

Class SignerClient (SgCfg : Type) : Type := {
  signer_Check : SgCfg -> option error;
  signer_CLIFlags : string -> list Flag;
  signer_ReadCLIConfig : Context -> SgCfg;
}.

(** ** [CLIConfig]

    [uint64] fields are [N]; a [time.Duration] is a signed count of
    nanoseconds, a [Z]. *)

Record CLIConfig (SgCfg : Type) : Type := mkCLIConfig {
  L1RPCURL : string;
  Mnemonic : string;
  HDPath : string;
  PrivateKey : string;
  SignerCLIConfig : SgCfg;
  NumConfirmations : N;
  SafeAbortNonceTooLowCount : N;
  TxBufferSize : N;
  ResubmissionTimeout : Z;
  ReceiptQueryInterval : Z;
  NetworkTimeout : Z;
  TxSendTimeout : Z;
  TxNotInMempoolTimeout : Z;
}.

Arguments mkCLIConfig {SgCfg}.
Arguments L1RPCURL {SgCfg} _.
Arguments Mnemonic {SgCfg} _.
Arguments HDPath {SgCfg} _.
Arguments PrivateKey {SgCfg} _.
Arguments SignerCLIConfig {SgCfg} _.
Arguments NumConfirmations {SgCfg} _.
Arguments SafeAbortNonceTooLowCount {SgCfg} _.
Arguments TxBufferSize {SgCfg} _.
Arguments ResubmissionTimeout {SgCfg} _.
Arguments ReceiptQueryInterval {SgCfg} _.
Arguments NetworkTimeout {SgCfg} _.
Arguments TxSendTimeout {SgCfg} _.
Arguments TxNotInMempoolTimeout {SgCfg} _.

(** [CLIConfig.Check]: the first failing test decides the error. *)

Definition Check {SgCfg} `{SignerClient SgCfg} (m : CLIConfig SgCfg) : option error :=
  if decide (L1RPCURL m = "") then
    Some (errors_New "must provide a L1 RPC url")
  else if decide (NumConfirmations m = 0%N) then
    Some (errors_New "NumConfirmations must not be 0")
  else if decide (NetworkTimeout m = 0%Z) then
    Some (errors_New "must provide NetworkTimeout")
  else if decide (ResubmissionTimeout m = 0%Z) then
    Some (errors_New "must provide ResubmissionTimeout")
  else if decide (ReceiptQueryInterval m = 0%Z) then
    Some (errors_New "must provide ReceiptQueryInterval")
  else if decide (TxNotInMempoolTimeout m = 0%Z) then
    Some (errors_New "must provide TxNotInMempoolTimeout")
  else if decide (SafeAbortNonceTooLowCount m = 0%N) then
    Some (errors_New "SafeAbortNonceTooLowCount must not be 0")
  else match signer_Check (SignerCLIConfig m) with
       | Some err => Some err
       | None => None
       end.

(** ** [CLIFlags] *)

Definition Second : Z := 1000000000.
Definition Minute : Z := 60 * Second.

Definition CLIFlags {SgCfg} `{SignerClient SgCfg} (envPrefix : string) : list Flag :=
  [ StringFlag MnemonicFlagName
      "The mnemonic used to derive the wallets for either the service"
      (PrefixEnvVar envPrefix "MNEMONIC") "";
    StringFlag HDPathFlagName
      "The HD path used to derive the wallet from the mnemonic. The mnemonic flag must also be set."
      (PrefixEnvVar envPrefix "HD_PATH") "";
    StringFlag "private-key"
      "The private key to use with the service. Must not be used with mnemonic."
      (PrefixEnvVar envPrefix "PRIVATE_KEY") "";
    Uint64Flag NumConfirmationsFlagName
      "Number of confirmations which we will wait after sending a transaction"
      (PrefixEnvVar envPrefix "NUM_CONFIRMATIONS") 10;
    Uint64Flag SafeAbortNonceTooLowCountFlagName
      "Number of ErrNonceTooLow observations required to give up on a tx at a particular nonce without receiving confirmation"
      (PrefixEnvVar envPrefix "SAFE_ABORT_NONCE_TOO_LOW_COUNT") 3;
    DurationFlag ResubmissionTimeoutFlagName
      "Duration we will wait before resubmitting a transaction to L1"
      (PrefixEnvVar envPrefix "RESUBMISSION_TIMEOUT") (48 * Second);
    DurationFlag NetworkTimeoutFlagName
      "Timeout for all network operations"
      (PrefixEnvVar envPrefix "NETWORK_TIMEOUT") (2 * Second);
    DurationFlag TxSendTimeoutFlagName
      "Timeout for sending transactions. If 0 it is disabled."
      (PrefixEnvVar envPrefix "TXMGR_TX_SEND_TIMEOUT") 0;
    DurationFlag TxNotInMempoolTimeoutFlagName
      "Timeout for aborting a tx send if the tx does not make it to the mempool."
      (PrefixEnvVar envPrefix "TXMGR_TX_NOT_IN_MEMPOOL_TIMEOUT") (2 * Minute);
    DurationFlag ReceiptQueryIntervalFlagName
      "Frequency to poll for receipts"
      (PrefixEnvVar envPrefix "TXMGR_RECEIPT_QUERY_INTERVAL") (12 * Second);
    Uint64Flag BufferSizeFlagName
      "Tx buffer size for buffered txmgr"
      (PrefixEnvVar envPrefix "TXMGR_BUFFER_SIZE") 10 ]
  ++ signer_CLIFlags envPrefix.

(** ** [ReadCLIConfig] *)

Definition ReadCLIConfig {SgCfg} `{SignerClient SgCfg} (ctx : Context) : CLIConfig SgCfg :=
  {| L1RPCURL := GlobalString ctx L1RPCFlagName;
     Mnemonic := GlobalString ctx MnemonicFlagName;
     HDPath := GlobalString ctx HDPathFlagName;
     PrivateKey := GlobalString ctx PrivateKeyFlagName;
     SignerCLIConfig := signer_ReadCLIConfig ctx;
     NumConfirmations := GlobalUint64 ctx NumConfirmationsFlagName;
     SafeAbortNonceTooLowCount := GlobalUint64 ctx SafeAbortNonceTooLowCountFlagName;
     ResubmissionTimeout := GlobalDuration ctx ResubmissionTimeoutFlagName;
     ReceiptQueryInterval := GlobalDuration ctx ReceiptQueryIntervalFlagName;
     NetworkTimeout := GlobalDuration ctx NetworkTimeoutFlagName;
     TxSendTimeout := GlobalDuration ctx TxSendTimeoutFlagName;
     TxNotInMempoolTimeout := GlobalDuration ctx TxNotInMempoolTimeoutFlagName;
     TxBufferSize := GlobalUint64 ctx BufferSizeFlagName |}.

(** ** [Config] and [NewConfig]

    [ethclient], [kcrypto] and go-ethereum's [common] are other packages: the
    client handle, the signing function and the address are opaque values here,
    and the three calls [NewConfig] makes on them are answered by a [World].
    Every such call leaves an [event] in the trace, in program order, so that
    what [NewConfig] did before it returned can be read off its result. *)

Section NewConfig.

Context {SgCfg : Type} `{SignerClient SgCfg}.
Variables Backend SignerFn Address : Type.
(** [common.Address{}], the all-zero address. *)
Variable Address_zero : Address.

(** A nil interface, pointer or func is [None]. *)
Record Config : Type := mkConfig {
  cfg_Backend : option Backend;
  cfg_ResubmissionTimeout : Z;
  cfg_ChainID : option Z;
  cfg_TxSendTimeout : Z;
  cfg_TxNotInMempoolTimeout : Z;
  cfg_NetworkTimeout : Z;
  cfg_ReceiptQueryInterval : Z;
  cfg_NumConfirmations : N;
  cfg_SafeAbortNonceTooLowCount : N;
  cfg_TxBufferSize : N;
  cfg_Signer : option SignerFn;
  cfg_From : Address;
}.

(** [Config{}] *)
Definition Config_zero : Config :=
  {| cfg_Backend := None;
     cfg_ResubmissionTimeout := 0;
     cfg_ChainID := None;
     cfg_TxSendTimeout := 0;
     cfg_TxNotInMempoolTimeout := 0;
     cfg_NetworkTimeout := 0;
     cfg_ReceiptQueryInterval := 0;
     cfg_NumConfirmations := 0;
     cfg_SafeAbortNonceTooLowCount := 0;
     cfg_TxBufferSize := 0;
     cfg_Signer := None;
     cfg_From := Address_zero |}.

(** The collaborators: each call either fails or yields its value. The
    first argument of the two network calls is the timeout of the context
    they run under. *)
Record World : Type := mkWorld {
  ethclient_DialContext : Z -> string -> error + Backend;
  l1_ChainID : Z -> Backend -> error + Z;
  kcrypto_SignerFactoryFromConfig :
    string -> string -> string -> SgCfg -> error + ((Z -> SignerFn) * Address);
}.

Inductive event : Type :=
| EvDial (timeout : Z) (url : string)
| EvChainID (timeout : Z) (l1 : Backend)
| EvSignerFactory (privateKey mnemonic hdPath : string) (signerCfg : SgCfg).

(** Calls that log an event and may fail. *)
Definition Eff (A : Type) : Type := (list event * (error + A))%type.

Definition eff_ret {A} (a : A) : Eff A := ([], inr a).

Definition eff_bind {A B} (m : Eff A) (k : A -> Eff B) : Eff B :=
  match m with
  | (t, inl e) => (t, inl e)
  | (t, inr a) => let '(t', r) := k a in ((t ++ t')%list, r)
  end.

(** One call on a collaborator; on failure the error is wrapped under
    [text], as [fmt.Errorf] with the wrapping verb does. *)
Definition eff_call {A} (ev : event) (text : string) (r : error + A) : Eff A :=
  ([ev], match r with
         | inl err => inl (fmt_Errorf_w text err)
         | inr a => inr a
         end).

#[local] Instance Eff_ret : MRet Eff := @eff_ret.
#[local] Instance Eff_bind : MBind Eff := fun A B k m => eff_bind m k.

Definition NewConfig_body (w : World) (cfg : CLIConfig SgCfg) : Eff Config :=
  l1 ← eff_call (EvDial (NetworkTimeout cfg) (L1RPCURL cfg))
          "could not dial eth client: "
          (ethclient_DialContext w (NetworkTimeout cfg) (L1RPCURL cfg));
  chainID ← eff_call (EvChainID (NetworkTimeout cfg) l1)
          "could not dial fetch L1 chain ID: "
          (l1_ChainID w (NetworkTimeout cfg) l1);
  '(signerFactory, from) ←
        eff_call (EvSignerFactory (PrivateKey cfg) (Mnemonic cfg) (HDPath cfg)
                                  (SignerCLIConfig cfg))
          "could not init signer: "
          (kcrypto_SignerFactoryFromConfig w (PrivateKey cfg) (Mnemonic cfg)
                                           (HDPath cfg) (SignerCLIConfig cfg));
  mret
    {| cfg_Backend := Some l1;
       cfg_ResubmissionTimeout := ResubmissionTimeout cfg;
       cfg_ChainID := Some chainID;
       cfg_TxSendTimeout := TxSendTimeout cfg;
       cfg_TxNotInMempoolTimeout := TxNotInMempoolTimeout cfg;
       cfg_NetworkTimeout := NetworkTimeout cfg;
       cfg_ReceiptQueryInterval := ReceiptQueryInterval cfg;
       cfg_NumConfirmations := NumConfirmations cfg;
       cfg_SafeAbortNonceTooLowCount := SafeAbortNonceTooLowCount cfg;
       cfg_TxBufferSize := TxBufferSize cfg;
       cfg_Signer := Some (signerFactory chainID);
       cfg_From := from |}.

(** The result is Go's pair: the [Config] and the error, [None] for nil. *)
Definition NewConfig (w : World) (cfg : CLIConfig SgCfg)
  : list event * (Config * option error) :=
  match Check cfg with
  | Some err => ([], (Config_zero, Some (fmt_Errorf_w "invalid config: " err)))
  | None =>
      match NewConfig_body w cfg with
      | (t, inl err) => (t, (Config_zero, Some err))
      | (t, inr c) => (t, (c, None))
      end
  end.

End NewConfig.

Arguments World : clear implicits.
Arguments event : clear implicits.
Arguments Eff : clear implicits.
Arguments mkConfig {Backend SignerFn Address}.
Arguments cfg_Backend {Backend SignerFn Address} _.
Arguments cfg_ResubmissionTimeout {Backend SignerFn Address} _.
Arguments cfg_ChainID {Backend SignerFn Address} _.
Arguments cfg_TxSendTimeout {Backend SignerFn Address} _.
Arguments cfg_TxNotInMempoolTimeout {Backend SignerFn Address} _.
Arguments cfg_NetworkTimeout {Backend SignerFn Address} _.
Arguments cfg_ReceiptQueryInterval {Backend SignerFn Address} _.
Arguments cfg_NumConfirmations {Backend SignerFn Address} _.
Arguments cfg_SafeAbortNonceTooLowCount {Backend SignerFn Address} _.
Arguments cfg_TxBufferSize {Backend SignerFn Address} _.
Arguments cfg_Signer {Backend SignerFn Address} _.
Arguments cfg_From {Backend SignerFn Address} _.
Arguments Config_zero {Backend SignerFn Address} Address_zero.
Arguments mkWorld {SgCfg Backend SignerFn Address}.
Arguments ethclient_DialContext {SgCfg Backend SignerFn Address} _ _ _.
Arguments l1_ChainID {SgCfg Backend SignerFn Address} _ _ _.
Arguments kcrypto_SignerFactoryFromConfig {SgCfg Backend SignerFn Address} _ _ _ _ _.
Arguments EvDial {SgCfg Backend} timeout url.
Arguments EvChainID {SgCfg Backend} timeout l1.
Arguments EvSignerFactory {SgCfg Backend} privateKey mnemonic hdPath signerCfg.
Arguments NewConfig_body {SgCfg Backend SignerFn Address} w cfg.
Arguments NewConfig {SgCfg _ Backend SignerFn Address} Address_zero w cfg.

(** ** [utils/service]: [validateEnvVars]

    [strings.Split] is only called with the one-byte separator [=]: it cuts
    the string at every occurrence of that byte and always yields at least one
    piece. [strings.HasPrefix key prefix] is [String.prefix prefix key]. The
    set of defined names is a map with empty values, a [gset]. *)

Fixpoint strings_Split (s : string) (sep : ascii) : list string :=
  match s with
  | EmptyString => [EmptyString]
  | String c rest =>
      if Ascii.eqb c sep then EmptyString :: strings_Split rest sep
      else match strings_Split rest sep with
           | [] => [String c EmptyString]
           | piece :: pieces => String c piece :: pieces
           end
  end.

Definition strings_HasPrefix (s prefix : string) : bool := String.prefix prefix s.

(** One turn of the loop over [providedEnvVars]; [out] is the slice built so
    far. *)
Definition validateEnvVars_step (prefix : string) (definedEnvVars : gset string)
    (out : list string) (envVar : string) : list string :=
  match strings_Split envVar "=" with
  | [] => out
  | key :: _ =>
      if strings_HasPrefix key prefix then
        if decide (key ∈ definedEnvVars) then out else (out ++ [envVar])%list
      else out
  end.

Definition validateEnvVars (prefix : string) (providedEnvVars : list string)
    (definedEnvVars : gset string) : list string :=
  fold_left (validateEnvVars_step prefix definedEnvVars) providedEnvVars [].

(** The key of an entry as the documentation words it: the text before the
    first [=] (the whole entry when it has none). *)
Fixpoint env_key (envVar : string) : string :=
  match envVar with
  | EmptyString => EmptyString
  | String c rest => if Ascii.eqb c "=" then EmptyString else String c (env_key rest)
  end.

(** An unknown variable of the prefix: its key starts with the prefix and is
    not defined. *)
Definition unknown_env_var (prefix : string) (definedEnvVars : gset string)
    (envVar : string) : bool :=
  String.prefix prefix (env_key envVar) && bool_decide (env_key envVar ∉ definedEnvVars).

(** ** [utils/service]: [ParseAddress]

    [common.IsHexAddress] and [common.HexToAddress] are go-ethereum's. *)

Section ParseAddress.

Variable Address : Type.
Variable Address_zero : Address.
Variable common_IsHexAddress : string -> bool.
Variable common_HexToAddress : string -> Address.

Definition ParseAddress (address : string) : Address * option error :=
  if common_IsHexAddress address then (common_HexToAddress address, None)
  else (Address_zero, Some (errors_New ("invalid address: " ++ address))).

End ParseAddress.

(** ** The submission engine behind [Config]

    [txmgr.go], which holds [Send], the resubmission loop and the send state,
    is not among these sources: only the configuration it reads is. The
    definitions of this part follow the written design of the engine, and the
    comments on [Config]'s fields in [cli.go]. *)

Module SendSpec.

(** Modelled from the spec: the Candidate of [txmgr.go]'s send loop, "one
    signed transaction object for a Call at a specific nonce and fee bid". *)
Record Candidate : Type := mkCandidate {
  cand_nonce : N;
  cand_bid : Z;
}.

(** Modelled from the spec: the terminal states of one Send in [txmgr.go],
    "Confirmed | NonceStale | Underfunded | NotInMempool | TimedOut |
    Cancelled"; a Receipt is kept as the bid of the Candidate that was mined. *)
Inductive SendOutcome : Type :=
| Confirmed (minedBid : Z)
| NonceStale
| Underfunded
| NotInMempool
| TimedOut
| Cancelled.

(** Modelled from the spec: the Gas Pricer of [txmgr.go],
    "NextBid(previousBid, attemptIndex, chainSuggestedFee) -> newBid" with a
    configurable ceiling. *)
Record GasPricer : Type := mkGasPricer {
  NextBid : Z -> nat -> Z -> Z;
  ceiling : Z;
}.

(** Modelled from the spec: the contract of the Gas Pricer of [txmgr.go]. The
    bid is "strictly greater than previousBid once attemptIndex > 0" as long as
    there is room under the ceiling, it is capped "at a configurable ceiling",
    "if the ceiling is reached, further escalation requests return the ceiling
    unchanged", and it respects "the chain's suggested minimum" up to that
    cap. *)
Record GasPricer_contract (gp : GasPricer) : Prop := mkGasPricer_contract {
  pricer_escalates : forall p i s, (0 < i)%nat -> (p < ceiling gp)%Z -> (p < NextBid gp p i s)%Z;
  pricer_capped : forall p i s, (NextBid gp p i s <= ceiling gp)%Z;
  pricer_at_ceiling : forall p i s, (ceiling gp <= p)%Z -> NextBid gp p i s = ceiling gp;
  pricer_respects_min : forall p i s, (Z.min s (ceiling gp) <= NextBid gp p i s)%Z;
}.

(** Modelled from the spec: what the submission loop of [txmgr.go] observes.
    The first five are the backend's answers to a broadcast attempt:
    accepted into the mempool, rejected as "nonce too low", "not enough funds"
    or "replacement underpriced", or lost to a transport error. The other five
    are what step 3 and the edge-case policy wait on: the resubmission
    timeout, a receipt at the required depth, the send timeout, the
    not-in-mempool timeout, the caller's cancellation. *)
Inductive Observation : Type :=
| ObsAccepted
| ObsNonceTooLow
| ObsInsufficientFunds
| ObsReplacementUnderpriced
| ObsTransportError
| ObsResubmissionTimeout (chainSuggestedFee : Z)
| ObsReceiptAtDepth (minedBid : Z)
| ObsSendTimeout
| ObsNotInMempoolTimeout
| ObsContextCancelled.

(** The backend's answers to a broadcast attempt. *)
Definition is_answer (obs : Observation) : bool :=
  match obs with
  | ObsAccepted | ObsNonceTooLow | ObsInsufficientFunds | ObsReplacementUnderpriced
  | ObsTransportError => true
  | _ => false
  end.

(** Modelled from the spec: the state the submission loop of [txmgr.go] keeps
    for one Call: the leased nonce, the Candidates produced so far (oldest
    first), the bid and index of the latest one, the dedicated nonce-too-low
    counter, how many broadcast attempts were made and how many of them the
    backend has not answered yet, and whether a Candidate was seen in the
    mempool. *)
Record SendState : Type := mkSendState {
  st_nonce : N;
  st_candidates : list Candidate;
  st_bid : Z;
  st_attempt : nat;
  st_nonceTooLowCount : N;
  st_broadcasts : nat;
  st_in_flight : nat;
  st_in_mempool : bool;
}.

(** Modelled from the spec: the start of a Send in [txmgr.go]: the lease
    fixes the nonce, the first Candidate carries the initial bid, determined
    "from current network suggestions", and is broadcast (step 1): one attempt
    made, not answered yet. *)
Definition send_start (nonce : N) (initialBid : Z) : SendState :=
  {| st_nonce := nonce;
     st_candidates := [mkCandidate nonce initialBid];
     st_bid := initialBid;
     st_attempt := 0;
     st_nonceTooLowCount := 0;
     st_broadcasts := 1;
     st_in_flight := 1;
     st_in_mempool := false |}.

(** [st] after its latest Candidate was broadcast once more, in place of an
    attempt that failed. *)
Definition rebroadcast (st : SendState) (nonceTooLowCount : N) : SendState :=
  {| st_nonce := st_nonce st;
     st_candidates := st_candidates st;
     st_bid := st_bid st;
     st_attempt := st_attempt st;
     st_nonceTooLowCount := nonceTooLowCount;
     st_broadcasts := Datatypes.S (st_broadcasts st);
     st_in_flight := st_in_flight st;
     st_in_mempool := st_in_mempool st |}.

(** [st] after the backend answered one attempt for good. *)
Definition answered (st : SendState) (inMempool : bool) : SendState :=
  {| st_nonce := st_nonce st;
     st_candidates := st_candidates st;
     st_bid := st_bid st;
     st_attempt := st_attempt st;
     st_nonceTooLowCount := st_nonceTooLowCount st;
     st_broadcasts := st_broadcasts st;
     st_in_flight := Nat.pred (st_in_flight st);
     st_in_mempool := inMempool |}.

(** Modelled from the spec: one turn of the submission loop of [txmgr.go].
    An answer with no attempt in flight answers nothing and is passed over.
    - accepted: the Candidate is in the mempool;
    - nonce too low (step 4): the counter goes up by one; the Send gives up
      once the observations number [SafeAbortNonceTooLowCount], which [cli.go]
      documents as "how many ErrNonceTooLow observations are required to give up
      on a tx at a particular nonce"; until then it retries, "rather than retry
      forever": the Candidate is broadcast again;
    - not enough funds or replacement underpriced (step 5): permanent "at the
      maximum allowed bid"; below it the attempt is dropped and the next
      escalation bids higher;
    - a transport error is transient and the broadcast is retried;
    - resubmission timeout (step 3a): the pricer is asked for the next bid; a
      new Candidate at the same nonce is broadcast "in addition to" the earlier
      ones, unless the bid comes back identical, the "final attempt" ("Only one
      publication at MaxGasPrice will be attempted", [cli.go]);
    - a receipt at the required depth, the send timeout and a cancelled
      context end the Send;
    - the not-in-mempool timeout ends it unless a Candidate was seen in the
      mempool ("If the tx is in the mempool, TxSendTimeout is used instead",
      [cli.go]). *)
Definition send_step (gp : GasPricer) (safeAbortNonceTooLowCount : N)
    (st : SendState) (obs : Observation) : SendState + SendOutcome :=
  if is_answer obs && Nat.eqb (st_in_flight st) 0 then inl st
  else
    match obs with
    | ObsAccepted => inl (answered st true)
    | ObsNonceTooLow =>
        let count := (st_nonceTooLowCount st + 1)%N in
        if (safeAbortNonceTooLowCount <=? count)%N then inr NonceStale
        else inl (rebroadcast st count)
    | ObsInsufficientFunds | ObsReplacementUnderpriced =>
        if (ceiling gp <=? st_bid st)%Z then inr Underfunded
        else inl (answered st (st_in_mempool st))
    | ObsTransportError => inl (rebroadcast st (st_nonceTooLowCount st))
    | ObsResubmissionTimeout suggested =>
        let attempt := Datatypes.S (st_attempt st) in
        let newBid := NextBid gp (st_bid st) attempt suggested in
        if (newBid =? st_bid st)%Z then inl st
        else inl {| st_nonce := st_nonce st;
                    st_candidates :=
                      (st_candidates st ++ [mkCandidate (st_nonce st) newBid])%list;
                    st_bid := newBid;
                    st_attempt := attempt;
                    st_nonceTooLowCount := st_nonceTooLowCount st;
                    st_broadcasts := Datatypes.S (st_broadcasts st);
                    st_in_flight := Datatypes.S (st_in_flight st);
                    st_in_mempool := st_in_mempool st |}
    | ObsReceiptAtDepth minedBid => inr (Confirmed minedBid)
    | ObsSendTimeout => inr TimedOut
    | ObsNotInMempoolTimeout => if st_in_mempool st then inl st else inr NotInMempool
    | ObsContextCancelled => inr Cancelled
    end.

(** Modelled from the spec: the submission loop of [txmgr.go] over what it
    observes, in order. It stops at the first terminal outcome and reports how
    many observations it took; with no terminal outcome by the end of the list
    the Send is still broadcasting. *)
Fixpoint send_run (gp : GasPricer) (safeAbortNonceTooLowCount : N)
    (st : SendState) (observed : list Observation) (taken : nat)
    : SendState * option (SendOutcome * nat) :=
  match observed with
  | [] => (st, None)
  | obs :: later =>
      match send_step gp safeAbortNonceTooLowCount st obs with
      | inr outcome => (st, Some (outcome, Datatypes.S taken))
      | inl st' => send_run gp safeAbortNonceTooLowCount st' later (Datatypes.S taken)
      end
  end.

(** Modelled from the spec: [Send] of [txmgr.go] from its initial Candidate. *)
Definition Send (gp : GasPricer) (safeAbortNonceTooLowCount : N)
    (nonce : N) (initialBid : Z) (observed : list Observation)
    : SendState * option (SendOutcome * nat) :=
  send_run gp safeAbortNonceTooLowCount (send_start nonce initialBid) observed 0.

(** A backend that answers every broadcast with "nonce too low", seen from
    the loop: every answer observed is that rejection, and all that happens
    besides is the resubmission timer firing, each time with the fee the chain
    suggests then. No deadline elapses and nobody cancels. *)
Definition rejected_or_timer (obs : Observation) : bool :=
  match obs with
  | ObsNonceTooLow | ObsResubmissionTimeout _ => true
  | _ => false
  end.

Definition every_broadcast_nonce_too_low (observed : list Observation) : Prop :=
  Forall (fun obs => rejected_or_timer obs = true) observed.

(** How many "nonce too low" answers a run of observations holds. *)
Fixpoint nonce_too_low_seen (observed : list Observation) : nat :=
  match observed with
  | [] => 0
  | ObsNonceTooLow :: later => Datatypes.S (nonce_too_low_seen later)
  | _ :: later => nonce_too_low_seen later
  end.

(** Successive bids never go down, respectively always go up: [bid[i+1] >=
    bid[i]], respectively [bid[i+1] > bid[i]], at every index. *)
Definition bids_non_decreasing (bids : list Z) : Prop :=
  forall (i : nat) (b b' : Z),
    bids !! i = Some b -> bids !! Datatypes.S i = Some b' -> (b <= b')%Z.

Definition bids_increasing (bids : list Z) : Prop :=
  forall (i : nat) (b b' : Z),
    bids !! i = Some b -> bids !! Datatypes.S i = Some b' -> (b < b')%Z.

(** What the loop keeps true of its state for the Call at [nonce]: the nonce
    is the leased one and every Candidate carries it, the bids went up at each
    new Candidate, the latest Candidate carries the current bid, and that bid
    is within the ceiling. *)
Definition send_invariant (gp : GasPricer) (nonce : N) (st : SendState) : Prop :=
  st_nonce st = nonce /\
  Forall (fun c => cand_nonce c = nonce) (st_candidates st) /\
  bids_increasing (map cand_bid (st_candidates st)) /\
  last (map cand_bid (st_candidates st)) = Some (st_bid st) /\
  (st_bid st <= ceiling gp)%Z.

(** A pricer that raises the bid by one unit, to at least the suggested fee,
    under a ceiling of 100: used to run the loop on concrete inputs. *)
Definition sample_pricer : GasPricer :=
  {| NextBid := fun p _ s => Z.min 100 (Z.max (p + 1) s);
     ceiling := 100 |}.

End SendSpec.

(** ** Concrete collaborators

    Stand-ins for the packages kept abstract above, to run the definitions on
    concrete inputs. The signer client is configured by an endpoint and an
    address, which must be set together; it brings two flags of its own. *)

#[global] Instance sample_signer_client : SignerClient (string * string) := {
  signer_Check := fun c =>
    match c with
    | (EmptyString, EmptyString) => None
    | (String _ _, String _ _) => None
    | _ => Some (errors_New "signer endpoint and address must both be set or not set")
    end;
  signer_CLIFlags := fun envPrefix =>
    [ StringFlag "signer.endpoint" "Signer endpoint the client will connect to"
        (PrefixEnvVar envPrefix "SIGNER_ENDPOINT") "";
      StringFlag "signer.address" "Address the signer is signing transactions for"
        (PrefixEnvVar envPrefix "SIGNER_ADDRESS") "" ];
  signer_ReadCLIConfig := fun ctx =>
    (GlobalString ctx "signer.endpoint", GlobalString ctx "signer.address");
}.

(** The configuration read from a command line that only sets the L1
    endpoint and the private key: every other field has its flag's default. *)
Definition default_CLIConfig : CLIConfig (string * string) :=
  {| L1RPCURL := "http://localhost:8545";
     Mnemonic := "";
     HDPath := "";
     PrivateKey := "0x01";
     SignerCLIConfig := ("", "");
     NumConfirmations := 10;
     SafeAbortNonceTooLowCount := 3;
     TxBufferSize := 10;
     ResubmissionTimeout := 48 * Second;
     ReceiptQueryInterval := 12 * Second;
     NetworkTimeout := 2 * Second;
     TxSendTimeout := 0;
     TxNotInMempoolTimeout := 2 * Minute |}.

(** A node that accepts every dial and reports chain 901; the client handle is
    the URL it was dialed at, a signing function is named by its chain, and an
    address is a number. *)
Definition sample_World : World (string * string) string Z N :=
  {| ethclient_DialContext := fun _ url => inr url;
     l1_ChainID := fun _ _ => inr 901%Z;
     kcrypto_SignerFactoryFromConfig := fun _ _ _ _ => inr (fun chainID => chainID, 7%N) |}.

(** go-ethereum's address functions, as stand-ins: an address is 20 bytes;
    a hex address is 40 hex digits after an optional [0x] or [0X]; decoding
    reads the digits two by two and right-aligns the bytes in the address. *)
Definition sample_Address : Type := list N.

Definition sample_Address_zero : sample_Address := replicate 20 0%N.

Definition hex_digit (c : ascii) : option N :=
  let n := N_of_ascii c in
  if ((48 <=? n) && (n <=? 57))%N then Some (n - 48)%N
  else if ((97 <=? n) && (n <=? 102))%N then Some (n - 87)%N
  else if ((65 <=? n) && (n <=? 70))%N then Some (n - 55)%N
  else None.

Definition strip_0x (s : string) : string :=
  match s with
  | String "0" (String "x" rest) | String "0" (String "X" rest) => rest
  | _ => s
  end.

Definition sample_IsHexAddress (s : string) : bool :=
  let digits := list_ascii_of_string (strip_0x s) in
  Nat.eqb (List.length digits) 40 && forallb (fun c => bool_decide (is_Some (hex_digit c))) digits.

Fixpoint hex_bytes (digits : list ascii) : list N :=
  match digits with
  | hi :: lo :: rest =>
      match hex_digit hi, hex_digit lo with
      | Some h, Some l => (16 * h + l)%N :: hex_bytes rest
      | _, _ => []
      end
  | _ => []
  end.

Definition sample_HexToAddress (s : string) : sample_Address :=
  let digits := list_ascii_of_string (strip_0x s) in
  let digits := if Nat.odd (List.length digits) then ("0"%char :: digits) else digits in
  let bytes := hex_bytes digits in
  let bytes := drop (List.length bytes - 20) bytes in
  (replicate (20 - List.length bytes) 0%N ++ bytes)%list.

(** The construction-time precondition as documented: all five durations
    non-zero, confirmation depth and nonce-too-low tolerance at least one. *)
Definition documented_precondition {SgCfg} (m : CLIConfig SgCfg) : Prop :=
  ResubmissionTimeout m <> 0%Z /\ NetworkTimeout m <> 0%Z /\
  ReceiptQueryInterval m <> 0%Z /\ TxNotInMempoolTimeout m <> 0%Z /\
  TxSendTimeout m <> 0%Z /\
  (1 <= NumConfirmations m)%N /\ (1 <= SafeAbortNonceTooLowCount m)%N.

(** Two configurations that agree on every field that is not one of
    [Mnemonic], [HDPath], [PrivateKey] and [TxBufferSize]. *)
Definition same_up_to_keys_and_buffer {SgCfg} (a b : CLIConfig SgCfg) : Prop :=
  L1RPCURL a = L1RPCURL b /\
  SignerCLIConfig a = SignerCLIConfig b /\
  NumConfirmations a = NumConfirmations b /\
  SafeAbortNonceTooLowCount a = SafeAbortNonceTooLowCount b /\
  ResubmissionTimeout a = ResubmissionTimeout b /\
  ReceiptQueryInterval a = ReceiptQueryInterval b /\
  NetworkTimeout a = NetworkTimeout b /\
  TxSendTimeout a = TxSendTimeout b /\
  TxNotInMempoolTimeout a = TxNotInMempoolTimeout b.

(** [m] with its transaction buffer size replaced. *)
Definition with_TxBufferSize {SgCfg} (m : CLIConfig SgCfg) (size : N) : CLIConfig SgCfg :=
  {| L1RPCURL := L1RPCURL m;
     Mnemonic := Mnemonic m;
     HDPath := HDPath m;
     PrivateKey := PrivateKey m;
     SignerCLIConfig := SignerCLIConfig m;
     NumConfirmations := NumConfirmations m;
     SafeAbortNonceTooLowCount := SafeAbortNonceTooLowCount m;
     TxBufferSize := size;
     ResubmissionTimeout := ResubmissionTimeout m;
     ReceiptQueryInterval := ReceiptQueryInterval m;
     NetworkTimeout := NetworkTimeout m;
     TxSendTimeout := TxSendTimeout m;
     TxNotInMempoolTimeout := TxNotInMempoolTimeout m |}.

(** The same command line without the L1 endpoint. *)
Definition CLIConfig_without_url : CLIConfig (string * string) :=
  {| L1RPCURL := "";
     Mnemonic := "";
     HDPath := "";
     PrivateKey := "0x01";
     SignerCLIConfig := ("", "");
     NumConfirmations := 10;
     SafeAbortNonceTooLowCount := 3;
     TxBufferSize := 10;
     ResubmissionTimeout := 48 * Second;
     ReceiptQueryInterval := 12 * Second;
     NetworkTimeout := 2 * Second;
     TxSendTimeout := 0;
     TxNotInMempoolTimeout := 2 * Minute |}.

(** The configuration surface: the three key-management options and the
    eight transaction-manager parameters, each flag name with the suffix of
    its environment variable. *)
Definition txmgr_flag_table : list (string * string) :=
  [ (MnemonicFlagName, "MNEMONIC");
    (HDPathFlagName, "HD_PATH");
    (PrivateKeyFlagName, "PRIVATE_KEY");
    (NumConfirmationsFlagName, "NUM_CONFIRMATIONS");
    (SafeAbortNonceTooLowCountFlagName, "SAFE_ABORT_NONCE_TOO_LOW_COUNT");
    (ResubmissionTimeoutFlagName, "RESUBMISSION_TIMEOUT");
    (NetworkTimeoutFlagName, "NETWORK_TIMEOUT");
    (TxSendTimeoutFlagName, "TXMGR_TX_SEND_TIMEOUT");
    (TxNotInMempoolTimeoutFlagName, "TXMGR_TX_NOT_IN_MEMPOOL_TIMEOUT");
    (ReceiptQueryIntervalFlagName, "TXMGR_RECEIPT_QUERY_INTERVAL");
    (BufferSizeFlagName, "TXMGR_BUFFER_SIZE") ].

(** The flags of a list that carry a given name. *)
Definition flags_named (name : string) (flags : list Flag) : list Flag :=
  List.filter (fun f => String.eqb (flag_Name f) name) flags.

(** A flag's name and environment variable. *)
Definition flag_key (f : Flag) : string * string := (flag_Name f, flag_EnvVar f).

(** ** [utils/service]: [PrefixEnvVarV2], [cliFlagsToEnvVars], [ValidateEnvVars]

    [util.go] works on the flags of urfave/cli v2, whose structs carry a slice
    [EnvVars]; [cliFlagsToEnvVars] reaches that field by reflection and reads
    its elements by index. A flag is kept as its name and that slice. *)

Definition PrefixEnvVarV2 (prefix suffix : string) : list string :=
  [prefix ++ "_" ++ suffix].

Record FlagV2 : Type := mkFlagV2 {
  v2_Name : string;
  v2_EnvVars : list string;
}.

(** The inner loop stores each element of [EnvVars] under its own key, the
    outer one walks the flags. *)
Definition cliFlagsToEnvVars (flags : list FlagV2) : gset string :=
  fold_left
    (fun definedEnvVars flag =>
       fold_left (fun definedEnvVars envVar => {[ envVar ]} ∪ definedEnvVars)
                 (v2_EnvVars flag) definedEnvVars)
    flags ∅.

(** A call of the logger: [log.Warn msg key value ...]. *)
Record log_Warn : Type := mkWarn {
  warn_msg : string;
  warn_ctx : list (string * string);
}.

(** [os.Environ()] is an argument; the result is the warnings logged, in
    order. *)
Definition ValidateEnvVars (prefix : string) (flags : list FlagV2)
    (os_Environ : list string) : list log_Warn :=
  List.map
    (fun envVar => mkWarn "Unknown env var" [("prefix", prefix); ("env_var", envVar)])
    (validateEnvVars prefix os_Environ (cliFlagsToEnvVars flags)).

(** ** Vocabulary of the further properties *)

(** The pieces of a split put back together around the separator. *)
Fixpoint join_pieces (pieces : list string) (sep : ascii) : string :=
  match pieces with
  | [] => EmptyString
  | [piece] => piece
  | piece :: rest => piece ++ String sep (join_pieces rest sep)
  end.

(** How often a byte occurs in a string. *)
Fixpoint count_byte (sep : ascii) (s : string) : nat :=
  match s with
  | EmptyString => 0
  | String c rest => (if Ascii.eqb c sep then 1 else 0) + count_byte sep rest
  end.

(** The seven tests [Check] makes itself, in program order, each with the
    message of its error: the flag tells whether the test fires on [m]. *)
Definition Check_own_tests {SgCfg} (m : CLIConfig SgCfg) : list (bool * string) :=
  [ (bool_decide (L1RPCURL m = ""), "must provide a L1 RPC url");
    (bool_decide (NumConfirmations m = 0%N), "NumConfirmations must not be 0");
    (bool_decide (NetworkTimeout m = 0%Z), "must provide NetworkTimeout");
    (bool_decide (ResubmissionTimeout m = 0%Z), "must provide ResubmissionTimeout");
    (bool_decide (ReceiptQueryInterval m = 0%Z), "must provide ReceiptQueryInterval");
    (bool_decide (TxNotInMempoolTimeout m = 0%Z), "must provide TxNotInMempoolTimeout");
    (bool_decide (SafeAbortNonceTooLowCount m = 0%N),
     "SafeAbortNonceTooLowCount must not be 0") ].

(** [m] with another signer configuration. *)
Definition with_SignerCLIConfig {SgCfg} (m : CLIConfig SgCfg) (signerCfg : SgCfg)
    : CLIConfig SgCfg :=
  {| L1RPCURL := L1RPCURL m;
     Mnemonic := Mnemonic m;
     HDPath := HDPath m;
     PrivateKey := PrivateKey m;
     SignerCLIConfig := signerCfg;
     NumConfirmations := NumConfirmations m;
     SafeAbortNonceTooLowCount := SafeAbortNonceTooLowCount m;
     TxBufferSize := TxBufferSize m;
     ResubmissionTimeout := ResubmissionTimeout m;
     ReceiptQueryInterval := ReceiptQueryInterval m;
     NetworkTimeout := NetworkTimeout m;
     TxSendTimeout := TxSendTimeout m;
     TxNotInMempoolTimeout := TxNotInMempoolTimeout m |}.

(** [m] with its five durations replaced. *)
Definition with_durations {SgCfg} (m : CLIConfig SgCfg)
    (resubmission receiptQuery network txSend notInMempool : Z) : CLIConfig SgCfg :=
  {| L1RPCURL := L1RPCURL m;
     Mnemonic := Mnemonic m;
     HDPath := HDPath m;
     PrivateKey := PrivateKey m;
     SignerCLIConfig := SignerCLIConfig m;
     NumConfirmations := NumConfirmations m;
     SafeAbortNonceTooLowCount := SafeAbortNonceTooLowCount m;
     TxBufferSize := TxBufferSize m;
     ResubmissionTimeout := resubmission;
     ReceiptQueryInterval := receiptQuery;
     NetworkTimeout := network;
     TxSendTimeout := txSend;
     TxNotInMempoolTimeout := notInMempool |}.

(** A parsed command line on which a flag reads back as the default it was
    declared with, through the lookup of its own kind. *)
Definition reads_default (ctx : Context) (f : Flag) : Prop :=
  match f with
  | StringFlag name _ _ value => GlobalString ctx name = value
  | Uint64Flag name _ _ value => GlobalUint64 ctx name = value
  | DurationFlag name _ _ value => GlobalDuration ctx name = value
  end.

(** A command line that sets the L1 endpoint and leaves every flag of
    [CLIFlags] alone. *)
Definition sample_Context : Context :=
  {| GlobalString := fun name =>
       if String.eqb name L1RPCFlagName then "http://localhost:8545" else "";
     GlobalUint64 := fun name =>
       if String.eqb name SafeAbortNonceTooLowCountFlagName then 3%N else 10%N;
     GlobalDuration := fun name =>
       if String.eqb name ResubmissionTimeoutFlagName then (48 * Second)%Z
       else if String.eqb name NetworkTimeoutFlagName then (2 * Second)%Z
       else if String.eqb name TxNotInMempoolTimeoutFlagName then (2 * Minute)%Z
       else if String.eqb name ReceiptQueryIntervalFlagName then (12 * Second)%Z
       else 0%Z |}.

(** A node that fails at a chosen stage of the construction: 0 refuses the
    dial, 1 the chain-ID request, 2 the signer; any other stage succeeds
    throughout. *)
Definition failing_World (stage : nat) : World (string * string) string Z N :=
  {| ethclient_DialContext := fun _ url =>
       if Nat.eqb stage 0 then inl (errors_New "connection refused") else inr url;
     l1_ChainID := fun _ _ =>
       if Nat.eqb stage 1 then inl (errors_New "context deadline exceeded") else inr 901%Z;
     kcrypto_SignerFactoryFromConfig := fun _ _ _ _ =>
       if Nat.eqb stage 2 then inl (errors_New "invalid private key")
       else inr (fun chainID => chainID, 7%N) |}.

(** A string without the byte [=]. *)
Definition no_equals_sign (s : string) : bool :=
  forallb (fun c => negb (Ascii.eqb c "=")) (list_ascii_of_string s).

(** Rewrites the flags of [Check_own_tests] with what is known of the
    fields. *)
Ltac settle_tests :=
  repeat match goal with
         | Heq : ?x = ?y |- context [bool_decide (?x = ?y)] =>
             rewrite (bool_decide_eq_true_2 (x = y) Heq)
         | Hne : ?x <> ?y |- context [bool_decide (?x = ?y)] =>
             rewrite (bool_decide_eq_false_2 (x = y) Hne)
         | Heq : ?x = ?y, Hin : context [bool_decide (?x = ?y)] |- _ =>
             rewrite (bool_decide_eq_true_2 (x = y) Heq) in Hin
         | Hne : ?x <> ?y, Hin : context [bool_decide (?x = ?y)] |- _ =>
             rewrite (bool_decide_eq_false_2 (x = y) Hne) in Hin
         end.

(** Closes the goal once the tests before the failing one are chosen. *)
Ltac blame_here :=
  do 2 eexists; split; [reflexivity|]; split; [repeat constructor|reflexivity].

(** * Properties of the validation *)

Section CheckFacts.

Context {SgCfg : Type} `{SignerClient SgCfg}.

(** Reading a nil result of [Check] backwards: every test was passed. *)
Lemma Check_nil_inv (m : CLIConfig SgCfg) :
  Check m = None ->
  L1RPCURL m <> "" /\ NumConfirmations m <> 0%N /\ NetworkTimeout m <> 0%Z /\
  ResubmissionTimeout m <> 0%Z /\ ReceiptQueryInterval m <> 0%Z /\
  TxNotInMempoolTimeout m <> 0%Z /\ SafeAbortNonceTooLowCount m <> 0%N /\
  signer_Check (SignerCLIConfig m) = None.
Proof.
  unfold Check.
  repeat case_decide; try discriminate.
  destruct (signer_Check (SignerCLIConfig m)) eqn:Hs; [discriminate|].
  intros _. repeat split; assumption.
Qed.

(** And forwards: passing every test gives nil. *)
Lemma Check_nil_intro (m : CLIConfig SgCfg) :
  L1RPCURL m <> "" -> NumConfirmations m <> 0%N -> NetworkTimeout m <> 0%Z ->
  ResubmissionTimeout m <> 0%Z -> ReceiptQueryInterval m <> 0%Z ->
  TxNotInMempoolTimeout m <> 0%Z -> SafeAbortNonceTooLowCount m <> 0%N ->
  signer_Check (SignerCLIConfig m) = None ->
  Check m = None.
Proof.
  intros Hurl Hconf Hnet Hres Hrec Hmem Hsafe Hsig.
  unfold Check.
  repeat (case_decide; [contradiction|]).
  now rewrite Hsig.
Qed.

(** C1, as amended: when [Check] returns nil, the four durations
    [ResubmissionTimeout], [NetworkTimeout], [ReceiptQueryInterval] and
    [TxNotInMempoolTimeout] are non-zero, and [NumConfirmations] and
    [SafeAbortNonceTooLowCount] are at least 1. [TxSendTimeout] is not
    constrained. *)
Theorem Check_nil_validates (m : CLIConfig SgCfg) :
  Check m = None ->
  ResubmissionTimeout m <> 0%Z /\ NetworkTimeout m <> 0%Z /\
  ReceiptQueryInterval m <> 0%Z /\ TxNotInMempoolTimeout m <> 0%Z /\
  (1 <= NumConfirmations m)%N /\ (1 <= SafeAbortNonceTooLowCount m)%N.
Proof.
  intros Hnil.
  destruct (Check_nil_inv m Hnil) as (_ & Hconf & Hnet & Hres & Hrec & Hmem & Hsafe & _).
  repeat split; try assumption; lia.
Qed.

(** C2: a configuration whose [TxSendTimeout] is 0 and whose other required
    fields are valid passes [Check] with a nil error. *)
Theorem Check_accepts_zero_TxSendTimeout (m : CLIConfig SgCfg) :
  TxSendTimeout m = 0%Z ->
  L1RPCURL m <> "" ->
  NumConfirmations m <> 0%N ->
  NetworkTimeout m <> 0%Z ->
  ResubmissionTimeout m <> 0%Z ->
  ReceiptQueryInterval m <> 0%Z ->
  TxNotInMempoolTimeout m <> 0%Z ->
  SafeAbortNonceTooLowCount m <> 0%N ->
  signer_Check (SignerCLIConfig m) = None ->
  Check m = None.
Proof.
  intros _. apply Check_nil_intro.
Qed.

(** [Check] reads nothing but the nine fields listed in
    [same_up_to_keys_and_buffer]. *)
Lemma Check_reads_nine_fields (a b : CLIConfig SgCfg) :
  same_up_to_keys_and_buffer a b -> Check a = Check b.
Proof.
  intros (Hurl & Hsig & Hconf & Hsafe & Hres & Hrec & Hnet & _ & Hmem).
  unfold Check.
  rewrite Hurl, Hsig, Hconf, Hsafe, Hres, Hrec, Hnet, Hmem.
  reflexivity.
Qed.

(** C10: two configurations that differ only in [Mnemonic], [HDPath],
    [PrivateKey] and [TxBufferSize] get the same result from [Check]; in
    particular setting [TxBufferSize] to 0 does not change it. *)
Theorem Check_ignores_keys_and_buffer (a b : CLIConfig SgCfg) :
  same_up_to_keys_and_buffer a b ->
  Check a = Check b /\ Check (with_TxBufferSize a 0) = Check a.
Proof.
  intros Hsame. split.
  - now apply Check_reads_nine_fields.
  - apply Check_reads_nine_fields. repeat split.
Qed.

End CheckFacts.

(** C1, as stated, fails: the default configuration passes [Check] although
    its [TxSendTimeout] is zero. *)
Lemma Check_nil_with_zero_TxSendTimeout :
  Check default_CLIConfig = None /\ ~ documented_precondition default_CLIConfig.
Proof.
  split; [reflexivity|].
  intros (_ & _ & _ & _ & Hsend & _). now apply Hsend.
Qed.

Lemma Check_nil_validates_witness :
  Check default_CLIConfig = None /\
  ResubmissionTimeout default_CLIConfig = (48 * Second)%Z /\
  (1 <= NumConfirmations default_CLIConfig)%N.
Proof.
  split; [reflexivity|].
  split; [reflexivity|].
  exact (proj1 (proj2 (proj2 (proj2 (proj2
    (Check_nil_validates default_CLIConfig eq_refl)))))).
Defined.

Lemma Check_accepts_zero_TxSendTimeout_witness :
  TxSendTimeout default_CLIConfig = 0%Z /\ Check default_CLIConfig = None.
Proof.
  split; [reflexivity|].
  apply Check_accepts_zero_TxSendTimeout; simpl; (reflexivity || discriminate).
Defined.

Lemma Check_ignores_keys_and_buffer_witness :
  Check default_CLIConfig = None /\
  Check (mkCLIConfig "http://localhost:8545" "test test test" "m/44'/60'/0'/0/1" ""
           ("", "") 10 3 0 (48 * Second) (12 * Second) (2 * Second) 0 (2 * Minute))
  = Check default_CLIConfig.
Proof.
  split; [reflexivity|].
  symmetry.
  refine (proj1 (Check_ignores_keys_and_buffer default_CLIConfig _ _)).
  repeat split.
Defined.

(** * Properties of [NewConfig] *)

Section NewConfigFacts.

Context {SgCfg : Type} `{SignerClient SgCfg}.
Context {Backend SignerFn Address : Type}.
Variable Address_zero : Address.

(** C3: when [Check] returns an error, [NewConfig] returns the zero [Config]
    and an error that wraps the validation error, and its trace is empty: no
    dial, no chain-ID fetch, no signer construction took place. *)
Theorem NewConfig_fails_fast (w : World SgCfg Backend SignerFn Address)
    (cfg : CLIConfig SgCfg) (err : error) :
  Check cfg = Some err ->
  exists e, NewConfig Address_zero w cfg = ([], (Config_zero Address_zero, Some e)) /\
            Unwrap e = Some err /\
            Error e = "invalid config: " ++ Error err.
Proof.
  intros Hcheck.
  exists (fmt_Errorf_w "invalid config: " err).
  unfold NewConfig. rewrite Hcheck.
  repeat split.
Qed.

(** A successful body went through the three calls, in order, and copied the
    policy values. *)
Lemma NewConfig_body_ok (w : World SgCfg Backend SignerFn Address)
    (cfg : CLIConfig SgCfg) (t : list (event SgCfg Backend))
    (c : Config Backend SignerFn Address) :
  NewConfig_body w cfg = (t, inr c) ->
  exists l1 chainID signerFactory from,
    ethclient_DialContext w (NetworkTimeout cfg) (L1RPCURL cfg) = inr l1 /\
    l1_ChainID w (NetworkTimeout cfg) l1 = inr chainID /\
    kcrypto_SignerFactoryFromConfig w (PrivateKey cfg) (Mnemonic cfg) (HDPath cfg)
      (SignerCLIConfig cfg) = inr (signerFactory, from) /\
    t = [ EvDial (NetworkTimeout cfg) (L1RPCURL cfg);
          EvChainID (NetworkTimeout cfg) l1;
          EvSignerFactory (PrivateKey cfg) (Mnemonic cfg) (HDPath cfg) (SignerCLIConfig cfg) ] /\
    c = {| cfg_Backend := Some l1;
           cfg_ResubmissionTimeout := ResubmissionTimeout cfg;
           cfg_ChainID := Some chainID;
           cfg_TxSendTimeout := TxSendTimeout cfg;
           cfg_TxNotInMempoolTimeout := TxNotInMempoolTimeout cfg;
           cfg_NetworkTimeout := NetworkTimeout cfg;
           cfg_ReceiptQueryInterval := ReceiptQueryInterval cfg;
           cfg_NumConfirmations := NumConfirmations cfg;
           cfg_SafeAbortNonceTooLowCount := SafeAbortNonceTooLowCount cfg;
           cfg_TxBufferSize := TxBufferSize cfg;
           cfg_Signer := Some (signerFactory chainID);
           cfg_From := from |}.
Proof.
  unfold NewConfig_body, mbind, Eff_bind, eff_bind, eff_call, mret, Eff_ret, eff_ret.
  destruct (ethclient_DialContext w _ _) as [e1|l1] eqn:Hdial; [discriminate|].
  destruct (l1_ChainID w _ l1) as [e2|chainID] eqn:Hchain; [discriminate|].
  destruct (kcrypto_SignerFactoryFromConfig w _ _ _ _) as [e3|[signerFactory from]]
    eqn:Hsigner; [discriminate|].
  simpl. intros [= <- <-].
  exists l1, chainID, signerFactory, from.
  repeat split; assumption.
Qed.

(** C4: when [NewConfig] returns a nil error, the policy fields of the
    returned [Config] equal those of the [CLIConfig], and its [ChainID] is the
    one the dialed backend reported. *)
Theorem NewConfig_snapshot (w : World SgCfg Backend SignerFn Address)
    (cfg : CLIConfig SgCfg) (t : list (event SgCfg Backend))
    (c : Config Backend SignerFn Address) :
  NewConfig Address_zero w cfg = (t, (c, None)) ->
  cfg_ResubmissionTimeout c = ResubmissionTimeout cfg /\
  cfg_TxSendTimeout c = TxSendTimeout cfg /\
  cfg_TxNotInMempoolTimeout c = TxNotInMempoolTimeout cfg /\
  cfg_NetworkTimeout c = NetworkTimeout cfg /\
  cfg_ReceiptQueryInterval c = ReceiptQueryInterval cfg /\
  cfg_NumConfirmations c = NumConfirmations cfg /\
  cfg_SafeAbortNonceTooLowCount c = SafeAbortNonceTooLowCount cfg /\
  cfg_TxBufferSize c = TxBufferSize cfg /\
  exists l1 chainID,
    ethclient_DialContext w (NetworkTimeout cfg) (L1RPCURL cfg) = inr l1 /\
    l1_ChainID w (NetworkTimeout cfg) l1 = inr chainID /\
    cfg_Backend c = Some l1 /\
    cfg_ChainID c = Some chainID.
Proof.
  unfold NewConfig.
  destruct (Check cfg) as [err|]; [discriminate|].
  destruct (NewConfig_body w cfg) as [t' [err|c']] eqn:Hbody; [discriminate|].
  intros [= -> ->].
  destruct (NewConfig_body_ok _ _ _ _ Hbody)
    as (l1 & chainID & signerFactory & from & Hdial & Hchain & _ & _ & ->).
  simpl. repeat split.
  exists l1, chainID. repeat split; assumption.
Qed.

End NewConfigFacts.

Lemma NewConfig_fails_fast_witness :
  Check CLIConfig_without_url = Some (errors_New "must provide a L1 RPC url") /\
  exists e,
    NewConfig 0%N sample_World CLIConfig_without_url = ([], (Config_zero 0%N, Some e)) /\
    Unwrap e = Some (errors_New "must provide a L1 RPC url") /\
    Error e = "invalid config: " ++ Error (errors_New "must provide a L1 RPC url").
Proof.
  split; [reflexivity|].
  apply NewConfig_fails_fast. reflexivity.
Defined.

Lemma NewConfig_snapshot_witness :
  exists t c,
    NewConfig 0%N sample_World default_CLIConfig = (t, (c, None)) /\
    cfg_NumConfirmations c = NumConfirmations default_CLIConfig /\
    cfg_TxBufferSize c = TxBufferSize default_CLIConfig /\
    exists l1 chainID,
      l1_ChainID sample_World (NetworkTimeout default_CLIConfig) l1 = inr chainID /\
      cfg_ChainID c = Some chainID.
Proof.
  eexists _, _. split; [reflexivity|].
  pose proof (NewConfig_snapshot 0%N sample_World default_CLIConfig _ _ eq_refl)
    as (_ & _ & _ & _ & _ & Hconf & _ & Hbuf & l1 & chainID & _ & Hchain & _ & Hid).
  split; [exact Hconf|]. split; [exact Hbuf|].
  exists l1, chainID. split; assumption.
Defined.

(** * Properties of the flag set *)

Section CLIFlagsFacts.

Context {SgCfg : Type} `{SignerClient SgCfg}.


End CLIFlagsFacts.


(** * Properties of the environment-variable screen *)

(** The first piece [strings.Split] cuts off is the text before the first
    [=]. *)
Lemma strings_Split_key (envVar : string) :
  exists pieces, strings_Split envVar "=" = env_key envVar :: pieces.
Proof.
  induction envVar as [|c rest [pieces IH]]; simpl.
  - now exists [].
  - destruct (Ascii.eqb c "=").
    + eexists; reflexivity.
    + rewrite IH. eexists; reflexivity.
Qed.

(** On an entry written KEY=VALUE, with no [=] inside KEY, that text is
    KEY. *)
Lemma env_key_of_entry (key value : string) :
  env_key key = key -> env_key (key ++ String "=" value) = key.
Proof.
  induction key as [|c key IH]; simpl; [reflexivity|].
  destruct (Ascii.eqb c "="); [discriminate|].
  intros [= Hkey]. now rewrite IH.
Qed.

(** One turn of the loop appends the entry exactly when it is an unknown
    variable of the prefix. *)
Lemma validateEnvVars_step_spec (prefix : string) (definedEnvVars : gset string)
    (out : list string) (envVar : string) :
  validateEnvVars_step prefix definedEnvVars out envVar =
  if unknown_env_var prefix definedEnvVars envVar then (out ++ [envVar])%list else out.
Proof.
  unfold validateEnvVars_step, unknown_env_var, strings_HasPrefix.
  destruct (strings_Split_key envVar) as [pieces ->].
  destruct (String.prefix prefix (env_key envVar)); simpl; [|reflexivity].
  case_decide as Hdefined.
  - rewrite bool_decide_eq_false_2; [reflexivity|]. intros Hnot. now apply Hnot.
  - now rewrite bool_decide_eq_true_2.
Qed.

(** The loop, started from any slice, appends the unknown entries in the
    order it meets them. *)
Lemma validateEnvVars_loop (prefix : string) (definedEnvVars : gset string)
    (providedEnvVars out : list string) :
  fold_left (validateEnvVars_step prefix definedEnvVars) providedEnvVars out =
  (out ++ List.filter (unknown_env_var prefix definedEnvVars) providedEnvVars)%list.
Proof.
  revert out.
  induction providedEnvVars as [|envVar later IH]; intros out; simpl.
  - now rewrite List.app_nil_r.
  - rewrite IH, validateEnvVars_step_spec.
    destruct (unknown_env_var prefix definedEnvVars envVar); [|reflexivity].
    now rewrite <- List.app_assoc.
Qed.

(** C8: [validateEnvVars] returns the provided entries whose key, the text
    before the first [=], starts with the prefix and is not defined, in their
    input order, and nothing else. *)
Theorem validateEnvVars_exact (prefix : string) (providedEnvVars : list string)
    (definedEnvVars : gset string) :
  validateEnvVars prefix providedEnvVars definedEnvVars =
    List.filter (unknown_env_var prefix definedEnvVars) providedEnvVars /\
  forall envVar,
    In envVar (validateEnvVars prefix providedEnvVars definedEnvVars) <->
    In envVar providedEnvVars /\
    String.prefix prefix (env_key envVar) = true /\
    env_key envVar ∉ definedEnvVars.
Proof.
  assert (Heq : validateEnvVars prefix providedEnvVars definedEnvVars =
                List.filter (unknown_env_var prefix definedEnvVars) providedEnvVars).
  { unfold validateEnvVars. now rewrite validateEnvVars_loop. }
  split; [exact Heq|].
  intros envVar. rewrite Heq, List.filter_In.
  unfold unknown_env_var.
  rewrite andb_true_iff, bool_decide_eq_true.
  reflexivity.
Qed.

(** * Properties of the address parser *)

Section ParseAddressFacts.

Context {Address : Type}.
Variable Address_zero : Address.
Variable common_IsHexAddress : string -> bool.
Variable common_HexToAddress : string -> Address.

(** C9: on a valid hexadecimal address [ParseAddress] returns the parsed
    address and a nil error; on any other string it returns the zero address
    and a non-nil error. An error never comes with a non-zero address, and a
    nil error never comes with an invalid address. *)
Theorem ParseAddress_total (address : string) :
  let result :=
    ParseAddress Address Address_zero common_IsHexAddress common_HexToAddress address in
  (common_IsHexAddress address = true ->
     result = (common_HexToAddress address, None)) /\
  (common_IsHexAddress address = false ->
     fst result = Address_zero /\ exists err, snd result = Some err) /\
  (snd result <> None -> fst result = Address_zero) /\
  (snd result = None -> common_IsHexAddress address = true).
Proof.
  unfold ParseAddress.
  destruct (common_IsHexAddress address); simpl.
  - repeat split; try discriminate. intros Herr. now contradiction Herr.
  - repeat split; try discriminate. eexists; reflexivity.
Qed.

End ParseAddressFacts.

(** * Properties of the submission loop *)

Module SendFacts.

Import SendSpec.

(** ** The nonce-too-low tolerance *)

(** With an attempt in flight, a "nonce too low" answer adds one to the
    counter and either ends the Send or has the Candidate broadcast again. *)
Lemma send_step_nonce_too_low (gp : GasPricer) (tolerance : N) (st : SendState) :
  (1 <= st_in_flight st)%nat ->
  send_step gp tolerance st ObsNonceTooLow =
  if (tolerance <=? st_nonceTooLowCount st + 1)%N then inr NonceStale
  else inl (rebroadcast st (st_nonceTooLowCount st + 1)).
Proof.
  intros Hflight. unfold send_step. simpl.
  destruct (st_in_flight st); [lia|reflexivity].
Qed.

(** The resubmission timer never ends the Send; it leaves the counter alone
    and takes no attempt out of flight, and it makes one more broadcast
    exactly when it produces one more Candidate. *)
Lemma send_step_resubmission_timeout (gp : GasPricer) (tolerance : N) (st : SendState)
    (suggested : Z) :
  exists next,
    send_step gp tolerance st (ObsResubmissionTimeout suggested) = inl next /\
    st_nonceTooLowCount next = st_nonceTooLowCount st /\
    (st_in_flight st <= st_in_flight next)%nat /\
    (st_broadcasts next + List.length (st_candidates st)
     = st_broadcasts st + List.length (st_candidates next))%nat.
Proof.
  unfold send_step. simpl.
  destruct (_ =? _)%Z; eexists; (split; [reflexivity|]); simpl;
    rewrite ?length_app; simpl; repeat split; lia.
Qed.

(** From a state with an attempt in flight that has seen fewer rejections
    than tolerated, and whose broadcast attempts are one per Candidate and
    one per rejection: while the backend answers every broadcast with "nonce
    too low" and nothing but the resubmission timer interferes, the Send goes
    on as long as the rejections seen stay below the tolerance, and ends with
    [NonceStale] at the observation that completes the count, whatever would
    have followed, without a retry for that last rejection. *)
Lemma send_run_every_broadcast_rejected (gp : GasPricer) (tolerance : N)
    (observed : list Observation) :
  forall (st : SendState) (taken : nat),
    every_broadcast_nonce_too_low observed ->
    (1 <= st_in_flight st)%nat ->
    (st_nonceTooLowCount st < tolerance)%N ->
    N.of_nat (st_broadcasts st)
    = (st_nonceTooLowCount st + N.of_nat (List.length (st_candidates st)))%N ->
    ((st_nonceTooLowCount st + N.of_nat (nonce_too_low_seen observed) < tolerance)%N ->
     snd (send_run gp tolerance st observed taken) = None) /\
    ((tolerance <= st_nonceTooLowCount st + N.of_nat (nonce_too_low_seen observed))%N ->
     exists k,
       (1 <= k <= List.length observed)%nat /\
       observed !! (k - 1)%nat = Some ObsNonceTooLow /\
       (st_nonceTooLowCount st + N.of_nat (nonce_too_low_seen (take k observed)))%N
       = tolerance /\
       forall later,
         let result := send_run gp tolerance st (observed ++ later)%list taken in
         snd result = Some (NonceStale, (taken + k)%nat) /\
         (N.of_nat (st_broadcasts (fst result)) + 1
          = tolerance + N.of_nat (List.length (st_candidates (fst result))))%N).
Proof.
  induction observed as [|obs observed IH]; intros st taken Hall Hflight Hbelow Hmade.
  { simpl. split; [reflexivity|]. intros Hreached. lia. }
  apply Forall_cons in Hall as [Hobs Hall].
  destruct obs; try discriminate Hobs.
  - (* one more rejection *)
    cbn [send_run app nonce_too_low_seen].
    rewrite (send_step_nonce_too_low gp tolerance st Hflight).
    destruct (N.leb_spec tolerance (st_nonceTooLowCount st + 1)) as [Hreached|Hnot].
    + split; [intros Hfew; lia|]. intros _. exists 1%nat.
      split; [simpl; lia|]. split; [reflexivity|]. split; [simpl; lia|].
      intros later. cbn [snd fst]. split; [do 2 f_equal; lia|lia].
    + destruct (IH (rebroadcast st (st_nonceTooLowCount st + 1)) (Datatypes.S taken) Hall)
        as [Hgoes Hends]; [exact Hflight|simpl; lia|simpl; lia|].
      cbn [rebroadcast st_nonceTooLowCount] in Hgoes, Hends.
      split; [intros Hfew; apply Hgoes; lia|].
      intros Hreached. destruct Hends as (k & Hk & Hat & Hcount & Hlater); [lia|].
      exists (Datatypes.S k). split; [simpl; lia|].
      split; [destruct k as [|k]; [lia|]; simpl in *; now rewrite Nat.sub_0_r in *|].
      split; [cbn [take nonce_too_low_seen]; lia|].
      intros later. destruct (Hlater later) as [Hout Hcounted].
      split; [rewrite Hout; do 2 f_equal; lia|exact Hcounted].
  - (* the resubmission timer *)
    cbn [send_run app nonce_too_low_seen].
    destruct (send_step_resubmission_timeout gp tolerance st chainSuggestedFee)
      as (next & -> & Hsame & Hnext & Hbroadcast).
    destruct (IH next (Datatypes.S taken) Hall) as [Hgoes Hends]; [lia|lia|lia|].
    rewrite Hsame in Hgoes, Hends.
    split; [exact Hgoes|].
    intros Hreached. destruct (Hends Hreached) as (k & Hk & Hat & Hcount & Hlater).
    exists (Datatypes.S k). split; [simpl; lia|].
    split; [destruct k as [|k]; [lia|]; simpl in *; now rewrite Nat.sub_0_r in *|].
    split; [cbn [take nonce_too_low_seen]; exact Hcount|].
    intros later. destruct (Hlater later) as [Hout Hcounted].
    split; [rewrite Hout; do 2 f_equal; lia|exact Hcounted].
Qed.

(** C5: take a tolerance [SafeAbortNonceTooLowCount >= 1] and a backend that
    answers every broadcast of the Send, first attempts, retries and
    escalated Candidates alike, with "nonce too low", while only the
    resubmission timer fires in between. As long as fewer rejections than the
    tolerance were observed the Send has not given up. Once that many were, it
    has ended with [NonceStale] at the very observation, a rejection, that
    brought their number to [SafeAbortNonceTooLowCount]; nothing that follows
    is looked at, and that last rejection is not retried: the broadcast
    attempts made are one per Candidate and one retry for each of the
    [SafeAbortNonceTooLowCount - 1] earlier rejections. *)
Theorem Send_nonce_stale_exactly (gp : GasPricer) (safeAbortNonceTooLowCount : N)
    (nonce : N) (initialBid : Z) (observed : list Observation) :
  (1 <= safeAbortNonceTooLowCount)%N ->
  every_broadcast_nonce_too_low observed ->
  ((N.of_nat (nonce_too_low_seen observed) < safeAbortNonceTooLowCount)%N ->
   snd (Send gp safeAbortNonceTooLowCount nonce initialBid observed) = None) /\
  ((safeAbortNonceTooLowCount <= N.of_nat (nonce_too_low_seen observed))%N ->
   exists k,
     (1 <= k <= List.length observed)%nat /\
     observed !! (k - 1)%nat = Some ObsNonceTooLow /\
     N.of_nat (nonce_too_low_seen (take k observed)) = safeAbortNonceTooLowCount /\
     forall later,
       let result :=
         Send gp safeAbortNonceTooLowCount nonce initialBid (observed ++ later)%list in
       snd result = Some (NonceStale, k) /\
       (N.of_nat (st_broadcasts (fst result)) + 1
        = safeAbortNonceTooLowCount + N.of_nat (List.length (st_candidates (fst result))))%N).
Proof.
  intros Hvalid Hall. unfold Send.
  destruct (send_run_every_broadcast_rejected gp safeAbortNonceTooLowCount observed
              (send_start nonce initialBid) 0 Hall) as [Hgoes Hends];
    [simpl; lia|simpl; lia|simpl; lia|].
  simpl in Hgoes, Hends. split; [exact Hgoes|exact Hends].
Qed.

(** ** Nonce and bids of the Candidates *)

(** Appending a bid above the last one keeps the bids going up. *)
Lemma bids_increasing_snoc (bids : list Z) (lastBid newBid : Z) :
  bids_increasing bids -> last bids = Some lastBid -> (lastBid < newBid)%Z ->
  bids_increasing (bids ++ [newBid]).
Proof.
  intros Hinc Hlast Hlt i b b' Hi Hsi.
  destruct (decide (Datatypes.S i < List.length bids)%nat) as [Hin|Hout].
  - rewrite lookup_app_l in Hi by lia.
    rewrite lookup_app_l in Hsi by lia.
    now apply (Hinc i).
  - pose proof (lookup_lt_Some _ _ _ Hsi) as Hbound.
    rewrite length_app in Hbound. simpl in Hbound.
    assert (Hlen : List.length bids = Datatypes.S i) by lia.
    rewrite lookup_app_l in Hi by lia.
    rewrite lookup_app_r in Hsi by lia.
    rewrite Hlen, Nat.sub_diag in Hsi. injection Hsi as <-.
    rewrite last_lookup, Hlen in Hlast. simpl in Hlast.
    rewrite Hi in Hlast. now injection Hlast as ->.
Qed.

Lemma bids_increasing_non_decreasing (bids : list Z) :
  bids_increasing bids -> bids_non_decreasing bids.
Proof.
  intros Hinc i b b' Hi Hsi. specialize (Hinc i b b' Hi Hsi). lia.
Qed.

(** A turn of the loop either leaves the Candidates alone or appends one at
    the nonce of the state, with the bid the pricer returned, which differs
    from the current one. *)
Lemma send_step_candidates (gp : GasPricer) (tolerance : N) (st st' : SendState)
    (obs : Observation) :
  send_step gp tolerance st obs = inl st' ->
  st_nonce st' = st_nonce st /\
  ((st_candidates st' = st_candidates st /\ st_bid st' = st_bid st) \/
   (exists suggested,
      st_bid st' = NextBid gp (st_bid st) (Datatypes.S (st_attempt st)) suggested /\
      st_bid st' <> st_bid st /\
      st_candidates st' = (st_candidates st ++ [mkCandidate (st_nonce st) (st_bid st')])%list)).
Proof.
  unfold send_step.
  destruct (is_answer obs && Nat.eqb (st_in_flight st) 0);
    [intros [= <-]; split; [reflexivity|now left]|].
  destruct obs; simpl;
    try (intros [= <-]; split; [reflexivity|now left]);
    try discriminate.
  - destruct (_ <=? _)%N; [discriminate|]. intros [= <-]. split; [reflexivity|now left].
  - destruct (_ <=? _)%Z; [discriminate|]. intros [= <-]. split; [reflexivity|now left].
  - destruct (_ <=? _)%Z; [discriminate|]. intros [= <-]. split; [reflexivity|now left].
  - destruct (Z.eqb_spec (NextBid gp (st_bid st) (Datatypes.S (st_attempt st)) chainSuggestedFee)
                         (st_bid st)) as [Hsame|Hnew];
      intros [= <-]; (split; [reflexivity|]); [now left|].
    right. exists chainSuggestedFee. simpl. repeat split. exact Hnew.
  - destruct (st_in_mempool st); [|discriminate].
    intros [= <-]. split; [reflexivity|now left].
Qed.

(** Whatever the pricer, every Candidate of a run carries the nonce of the
    state the run started from. *)
Lemma send_run_same_nonce (gp : GasPricer) (tolerance : N) (nonce : N)
    (observed : list Observation) :
  forall (st : SendState) (taken : nat),
    st_nonce st = nonce ->
    Forall (fun c => cand_nonce c = nonce) (st_candidates st) ->
    Forall (fun c => cand_nonce c = nonce)
      (st_candidates (fst (send_run gp tolerance st observed taken))).
Proof.
  induction observed as [|obs later IH]; intros st taken Hnonce Hall; simpl; [exact Hall|].
  destruct (send_step gp tolerance st obs) as [st'|outcome] eqn:Hstep; simpl; [|exact Hall].
  destruct (send_step_candidates _ _ _ _ _ Hstep) as [Hkeep Hcands].
  apply IH; [congruence|].
  destruct Hcands as [[-> _]|(suggested & _ & _ & ->)]; [exact Hall|].
  apply Forall_app. split; [exact Hall|]. constructor; [exact Hnonce|constructor].
Qed.

Section Invariant.

Variable gp : GasPricer.
Hypothesis Hcontract : GasPricer_contract gp.
Variable tolerance : N.
Variable nonce : N.

Lemma send_start_invariant (initialBid : Z) :
  (initialBid <= ceiling gp)%Z -> send_invariant gp nonce (send_start nonce initialBid).
Proof.
  intros Hcap. unfold send_invariant, send_start. simpl.
  repeat split; try assumption.
  - now repeat constructor.
  - intros [|i] b b' Hi Hsi; discriminate.
Qed.

(** A turn of the loop that does not end the Send keeps the invariant. *)
Lemma send_step_invariant (st st' : SendState) (obs : Observation) :
  send_invariant gp nonce st ->
  send_step gp tolerance st obs = inl st' ->
  send_invariant gp nonce st'.
Proof.
  intros (Hnonce & Hall & Hinc & Hlast & Hcap) Hstep.
  destruct (send_step_candidates _ _ _ _ _ Hstep) as [Hkeep Hcands].
  unfold send_invariant. rewrite Hkeep.
  destruct Hcands as [[-> ->]|(suggested & Hbid & Hnew & ->)]; [now repeat split|].
  assert (Hup : (st_bid st < st_bid st')%Z).
  { destruct (Z.lt_ge_cases (st_bid st) (ceiling gp)) as [Hroom|Hfull].
    - rewrite Hbid. apply (pricer_escalates gp Hcontract); [lia|exact Hroom].
    - exfalso. apply Hnew. rewrite Hbid.
      rewrite (pricer_at_ceiling gp Hcontract) by exact Hfull. lia. }
  rewrite map_app. simpl. repeat split.
  - exact Hnonce.
  - apply Forall_app. split; [exact Hall|]. constructor; [exact Hnonce|constructor].
  - now apply bids_increasing_snoc with (lastBid := st_bid st).
  - apply last_snoc.
  - rewrite Hbid. apply (pricer_capped gp Hcontract).
Qed.

(** So does any run of the loop, whether or not it ends the Send. *)
Lemma send_run_invariant (observed : list Observation) :
  forall (st : SendState) (taken : nat),
    send_invariant gp nonce st ->
    send_invariant gp nonce (fst (send_run gp tolerance st observed taken)).
Proof.
  induction observed as [|obs later IH]; intros st taken Hinv; simpl; [exact Hinv|].
  destruct (send_step gp tolerance st obs) as [st'|outcome] eqn:Hstep; simpl.
  - apply IH. eapply send_step_invariant; eassumption.
  - exact Hinv.
Qed.

End Invariant.


Lemma sample_pricer_contract : GasPricer_contract sample_pricer.
Proof.
  constructor; unfold sample_pricer; simpl; intros; lia.
Qed.


End SendFacts.

Lemma Send_nonce_stale_exactly_witness :
  snd (SendSpec.Send SendSpec.sample_pricer 3 7 10
         [ SendSpec.ObsNonceTooLow; SendSpec.ObsResubmissionTimeout 50;
           SendSpec.ObsNonceTooLow; SendSpec.ObsResubmissionTimeout 60 ]) = None /\
  exists k,
    snd (SendSpec.Send SendSpec.sample_pricer 3 7 10
           ([ SendSpec.ObsNonceTooLow; SendSpec.ObsResubmissionTimeout 50;
              SendSpec.ObsNonceTooLow; SendSpec.ObsResubmissionTimeout 60;
              SendSpec.ObsNonceTooLow ] ++ [ SendSpec.ObsNonceTooLow; SendSpec.ObsSendTimeout ]))
    = Some (SendSpec.NonceStale, k) /\
    N.of_nat
      (SendSpec.nonce_too_low_seen
         (take k [ SendSpec.ObsNonceTooLow; SendSpec.ObsResubmissionTimeout 50;
                   SendSpec.ObsNonceTooLow; SendSpec.ObsResubmissionTimeout 60;
                   SendSpec.ObsNonceTooLow ])) = 3%N.
Proof.
  split; [reflexivity|].
  destruct (SendFacts.Send_nonce_stale_exactly SendSpec.sample_pricer 3 7 10
              [ SendSpec.ObsNonceTooLow; SendSpec.ObsResubmissionTimeout 50;
                SendSpec.ObsNonceTooLow; SendSpec.ObsResubmissionTimeout 60;
                SendSpec.ObsNonceTooLow ]) as [_ Hends].
  - lia.
  - repeat constructor.
  - destruct Hends as (k & _ & _ & Hcount & Hlater); [simpl; lia|].
    exists k. split; [apply (Hlater [SendSpec.ObsNonceTooLow; SendSpec.ObsSendTimeout])|].
    exact Hcount.
Defined.


(** * The definitions at work *)

Example Check_first_failure_wins :
  Check (mkCLIConfig "" "" "" "" ("x", "") 0 0 0 0 0 0 0 0)
  = Some (errors_New "must provide a L1 RPC url") /\
  Check (mkCLIConfig "http://l1" "" "" "" ("x", "") 5 0 0 1 1 1 0 1)
  = Some (errors_New "SafeAbortNonceTooLowCount must not be 0") /\
  Check (mkCLIConfig "http://l1" "" "" "" ("x", "") 5 1 0 1 1 1 0 1)
  = Some (errors_New "signer endpoint and address must both be set or not set").
Proof. repeat split. Qed.

Example NewConfig_default_trace :
  fst (NewConfig 0%N sample_World default_CLIConfig)
  = [ EvDial (2 * Second) "http://localhost:8545";
      EvChainID (2 * Second) "http://localhost:8545";
      EvSignerFactory "0x01" "" "" ("", "") ].
Proof. reflexivity. Qed.

Example strings_Split_pieces :
  strings_Split "A=b=c" "=" = ["A"; "b"; "c"] /\
  strings_Split "=x" "=" = [""; "x"] /\
  strings_Split "plain" "=" = ["plain"] /\
  strings_Split "" "=" = [""].
Proof. repeat split. Qed.

Example validateEnvVars_batcher :
  validateEnvVars "KROMA_BATCHER"
    [ "KROMA_BATCHER_FOO=1"; "HOME=/root"; "KROMA_BATCHER_MNEMONIC=a=b";
      "KROMA_BATCHER_BAR"; "X=KROMA_BATCHER_FOO" ]
    {[ "KROMA_BATCHER_MNEMONIC"; "KROMA_BATCHER_NUM_CONFIRMATIONS" ]}
  = [ "KROMA_BATCHER_FOO=1"; "KROMA_BATCHER_BAR" ].
Proof. vm_compute. reflexivity. Qed.

Example ParseAddress_samples :
  ParseAddress sample_Address sample_Address_zero sample_IsHexAddress sample_HexToAddress
    "0x00000000000000000000000000000000000000fF"
  = ((replicate 19 0%N ++ [255%N])%list, None) /\
  ParseAddress sample_Address sample_Address_zero sample_IsHexAddress sample_HexToAddress
    "0x12"
  = (sample_Address_zero, Some (errors_New "invalid address: 0x12")).
Proof. split; reflexivity. Qed.

Example Send_gives_up_at_the_ceiling :
  SendSpec.Send SendSpec.sample_pricer 3 7 99
    [ SendSpec.ObsInsufficientFunds; SendSpec.ObsResubmissionTimeout 5;
      SendSpec.ObsNonceTooLow; SendSpec.ObsInsufficientFunds; SendSpec.ObsNonceTooLow ]
  = ( {| SendSpec.st_nonce := 7;
         SendSpec.st_candidates := [SendSpec.mkCandidate 7 99; SendSpec.mkCandidate 7 100];
         SendSpec.st_bid := 100;
         SendSpec.st_attempt := 1;
         SendSpec.st_nonceTooLowCount := 1;
         SendSpec.st_broadcasts := 3;
         SendSpec.st_in_flight := 1;
         SendSpec.st_in_mempool := false |},
      Some (SendSpec.Underfunded, 4%nat) ).
Proof. reflexivity. Qed.

(** * Further properties of the validation *)

Section CheckMore.

Context {SgCfg : Type} `{SignerClient SgCfg}.

(** X1: an error of [Check] is either the message of the first of its own
    seven tests that fires on the configuration, the earlier ones not firing,
    or, when none of the seven fires, the signer client's error unchanged. *)
Theorem Check_error_names_first_failing_test (m : CLIConfig SgCfg) (err : error) :
  Check m = Some err ->
  (exists before msg after,
     Check_own_tests m = (before ++ (true, msg) :: after)%list /\
     Forall (fun test => fst test = false) before /\
     err = errors_New msg) \/
  (Forall (fun test => fst test = false) (Check_own_tests m) /\
   signer_Check (SignerCLIConfig m) = Some err).
Proof.
  unfold Check.
  repeat case_decide; unfold Check_own_tests; settle_tests.
  8: { intros Hsigner. right. split; [repeat constructor|].
       destruct (signer_Check (SignerCLIConfig m)); [exact Hsigner|discriminate]. }
  all: intros [= <-]; left.
  all: first
    [ solve [exists []; blame_here]
    | solve [eexists [_]; blame_here]
    | solve [eexists [_; _]; blame_here]
    | solve [eexists [_; _; _]; blame_here]
    | solve [eexists [_; _; _; _]; blame_here]
    | solve [eexists [_; _; _; _; _]; blame_here]
    | solve [eexists [_; _; _; _; _; _]; blame_here] ].
Qed.

(** X2: when one of the seven own tests fires, the signer configuration has
    no part in the result: [Check] gives the same error whatever it is. *)
Theorem Check_own_failure_ignores_signer (m : CLIConfig SgCfg) (msg : string)
    (signerCfg : SgCfg) :
  In (true, msg) (Check_own_tests m) ->
  Check (with_SignerCLIConfig m signerCfg) = Check m /\ Check m <> None.
Proof.
  intros Hfires.
  unfold Check, with_SignerCLIConfig. simpl.
  repeat case_decide; try (split; [reflexivity|discriminate]).
  exfalso. unfold Check_own_tests in Hfires. settle_tests.
  repeat (destruct Hfires as [[=]|Hfires]). exact Hfires.
Qed.

(** X3: [Check] only compares durations with zero. A configuration that
    passes keeps passing when its durations are replaced by any other values,
    negative ones included, as long as the four tested ones are not zero. *)
Theorem Check_durations_only_tested_against_zero (m : CLIConfig SgCfg)
    (resubmission receiptQuery network txSend notInMempool : Z) :
  Check m = None ->
  resubmission <> 0%Z -> receiptQuery <> 0%Z -> network <> 0%Z -> notInMempool <> 0%Z ->
  Check (with_durations m resubmission receiptQuery network txSend notInMempool) = None.
Proof.
  intros Hnil Hres Hrec Hnet Hmem.
  destruct (Check_nil_inv m Hnil) as (Hurl & Hconf & _ & _ & _ & _ & Hsafe & Hsig).
  now apply Check_nil_intro.
Qed.

(** X4: on a command line where every flag of [CLIFlags] reads back as its
    declared default, [ReadCLIConfig] finds no key material, 10 confirmations,
    a tolerance of 3, a buffer of 10, the durations 48 s, 2 s, 0, 2 min and
    12 s; that configuration passes [Check] as soon as the L1 endpoint is
    given and the signer client accepts its part. *)
Theorem ReadCLIConfig_at_defaults (envPrefix : string) (ctx : Context) :
  Forall (reads_default ctx) (CLIFlags envPrefix) ->
  let m := ReadCLIConfig ctx in
  (Mnemonic m = "" /\ HDPath m = "" /\ PrivateKey m = "") /\
  (NumConfirmations m = 10%N /\ SafeAbortNonceTooLowCount m = 3%N /\
   TxBufferSize m = 10%N) /\
  (ResubmissionTimeout m = (48 * Second)%Z /\ NetworkTimeout m = (2 * Second)%Z /\
   TxSendTimeout m = 0%Z /\ TxNotInMempoolTimeout m = (2 * Minute)%Z /\
   ReceiptQueryInterval m = (12 * Second)%Z) /\
  (GlobalString ctx L1RPCFlagName <> "" ->
   signer_Check (signer_ReadCLIConfig ctx) = None ->
   Check m = None).
Proof.
  unfold CLIFlags. intros Hdefaults.
  apply Forall_app in Hdefaults as [Hown _].
  repeat match type of Hown with
         | Forall _ (_ :: _) => apply Forall_cons in Hown as [? Hown]
         end.
  unfold reads_default in *.
  simpl. repeat split; try assumption.
  intros Hurl Hsigner.
  apply Check_nil_intro; simpl; try assumption;
    repeat match goal with Hread : _ = _ |- _ => rewrite Hread; clear Hread end;
    discriminate.
Qed.

End CheckMore.

Lemma Check_error_names_first_failing_test_witness :
  Check (mkCLIConfig "http://l1" "" "" "" ("", "") 5 0 0 1 0 1 0 1)
  = Some (errors_New "must provide ReceiptQueryInterval") /\
  ((exists before msg after,
      Check_own_tests (mkCLIConfig "http://l1" "" "" "" ("", "") 5 0 0 1 0 1 0 1)
      = (before ++ (true, msg) :: after)%list /\
      Forall (fun test => fst test = false) before /\
      errors_New "must provide ReceiptQueryInterval" = errors_New msg) \/
   (Forall (fun test => fst test = false)
      (Check_own_tests (mkCLIConfig "http://l1" "" "" "" ("", "") 5 0 0 1 0 1 0 1)) /\
    signer_Check (SignerCLIConfig (mkCLIConfig "http://l1" "" "" "" ("", "") 5 0 0 1 0 1 0 1))
    = Some (errors_New "must provide ReceiptQueryInterval"))).
Proof.
  split; [reflexivity|].
  apply Check_error_names_first_failing_test. reflexivity.
Defined.

Lemma Check_own_failure_ignores_signer_witness :
  Check (with_SignerCLIConfig CLIConfig_without_url ("signer:8080", ""))
  = Check CLIConfig_without_url /\ Check CLIConfig_without_url <> None.
Proof.
  apply (Check_own_failure_ignores_signer CLIConfig_without_url "must provide a L1 RPC url").
  simpl. left. reflexivity.
Defined.

Lemma Check_durations_only_tested_against_zero_witness :
  Check (with_durations default_CLIConfig (-1) (-1) (-1) (-1) (-1)) = None.
Proof.
  apply Check_durations_only_tested_against_zero;
    first [reflexivity | discriminate].
Defined.

Lemma ReadCLIConfig_at_defaults_witness :
  NumConfirmations (ReadCLIConfig (SgCfg := string * string) sample_Context) = 10%N /\
  Check (ReadCLIConfig (SgCfg := string * string) sample_Context) = None.
Proof.
  pose proof (ReadCLIConfig_at_defaults (SgCfg := string * string) "KROMA_BATCHER"
                sample_Context) as Hread.
  assert (Hdefaults : Forall (reads_default sample_Context)
                        (CLIFlags (SgCfg := string * string) "KROMA_BATCHER")).
  { repeat constructor. }
  destruct (Hread Hdefaults) as (_ & (Hconf & _) & _ & Hcheck).
  split; [exact Hconf|].
  apply Hcheck; [discriminate|reflexivity].
Defined.

(** * Further properties of [NewConfig] *)

Section NewConfigMore.

Context {SgCfg : Type} `{SignerClient SgCfg}.
Context {Backend SignerFn Address : Type}.
Variable Address_zero : Address.

(** [NewConfig] written out stage by stage. *)
Lemma NewConfig_stages (w : World SgCfg Backend SignerFn Address) (cfg : CLIConfig SgCfg) :
  NewConfig Address_zero w cfg =
  let dialed := EvDial (NetworkTimeout cfg) (L1RPCURL cfg) in
  let built := EvSignerFactory (PrivateKey cfg) (Mnemonic cfg) (HDPath cfg)
                               (SignerCLIConfig cfg) in
  match Check cfg with
  | Some err => ([], (Config_zero Address_zero, Some (fmt_Errorf_w "invalid config: " err)))
  | None =>
    match ethclient_DialContext w (NetworkTimeout cfg) (L1RPCURL cfg) with
    | inl err =>
        ([dialed],
         (Config_zero Address_zero, Some (fmt_Errorf_w "could not dial eth client: " err)))
    | inr l1 =>
      let asked := EvChainID (NetworkTimeout cfg) l1 in
      match l1_ChainID w (NetworkTimeout cfg) l1 with
      | inl err =>
          ([dialed; asked],
           (Config_zero Address_zero,
            Some (fmt_Errorf_w "could not dial fetch L1 chain ID: " err)))
      | inr chainID =>
        match kcrypto_SignerFactoryFromConfig w (PrivateKey cfg) (Mnemonic cfg)
                (HDPath cfg) (SignerCLIConfig cfg) with
        | inl err =>
            ([dialed; asked; built],
             (Config_zero Address_zero, Some (fmt_Errorf_w "could not init signer: " err)))
        | inr (signerFactory, from) =>
            ([dialed; asked; built],
             ({| cfg_Backend := Some l1;
                 cfg_ResubmissionTimeout := ResubmissionTimeout cfg;
                 cfg_ChainID := Some chainID;
                 cfg_TxSendTimeout := TxSendTimeout cfg;
                 cfg_TxNotInMempoolTimeout := TxNotInMempoolTimeout cfg;
                 cfg_NetworkTimeout := NetworkTimeout cfg;
                 cfg_ReceiptQueryInterval := ReceiptQueryInterval cfg;
                 cfg_NumConfirmations := NumConfirmations cfg;
                 cfg_SafeAbortNonceTooLowCount := SafeAbortNonceTooLowCount cfg;
                 cfg_TxBufferSize := TxBufferSize cfg;
                 cfg_Signer := Some (signerFactory chainID);
                 cfg_From := from |}, None))
        end
      end
    end
  end.
Proof.
  unfold NewConfig, NewConfig_body, mbind, Eff_bind, eff_bind, eff_call, mret, Eff_ret,
    eff_ret.
  destruct (Check cfg) as [err|]; [reflexivity|].
  destruct (ethclient_DialContext w _ _) as [err|l1]; [reflexivity|].
  destruct (l1_ChainID w _ l1) as [err|chainID]; [reflexivity|].
  destruct (kcrypto_SignerFactoryFromConfig w _ _ _ _) as [err|[signerFactory from]];
    reflexivity.
Qed.

(** X5: [NewConfig] never hands out a partly built [Config]: on every
    path that returns an error, the failed validation, the refused dial, the
    failed chain-ID request and the failed signer construction, the [Config]
    returned with it is the zero value. *)
Theorem NewConfig_error_comes_with_zero_Config (w : World SgCfg Backend SignerFn Address)
    (cfg : CLIConfig SgCfg) :
  snd (snd (NewConfig Address_zero w cfg)) <> None ->
  fst (snd (NewConfig Address_zero w cfg)) = Config_zero Address_zero.
Proof.
  rewrite NewConfig_stages. cbv zeta.
  destruct (Check cfg) as [err|]; [reflexivity|].
  destruct (ethclient_DialContext w _ _) as [err|l1]; [reflexivity|].
  destruct (l1_ChainID w _ l1) as [err|chainID]; [reflexivity|].
  destruct (kcrypto_SignerFactoryFromConfig w _ _ _ _) as [err|[signerFactory from]];
    [reflexivity|].
  simpl. intros Herr. now contradiction Herr.
Qed.

(** X6: [NewConfig] stops at the first collaborator that fails. A refused
    dial is the only call made; a failed chain-ID request follows the dial
    and no signer is built; a failed signer construction comes after both. Each
    time the error wraps the collaborator's error under the text of its
    stage. *)
Theorem NewConfig_stops_at_first_failure (w : World SgCfg Backend SignerFn Address)
    (cfg : CLIConfig SgCfg) :
  Check cfg = None ->
  let dialed := EvDial (NetworkTimeout cfg) (L1RPCURL cfg) in
  let built := EvSignerFactory (PrivateKey cfg) (Mnemonic cfg) (HDPath cfg)
                               (SignerCLIConfig cfg) in
  (forall err,
     ethclient_DialContext w (NetworkTimeout cfg) (L1RPCURL cfg) = inl err ->
     NewConfig Address_zero w cfg =
     ([dialed],
      (Config_zero Address_zero, Some (fmt_Errorf_w "could not dial eth client: " err)))) /\
  (forall l1 err,
     ethclient_DialContext w (NetworkTimeout cfg) (L1RPCURL cfg) = inr l1 ->
     l1_ChainID w (NetworkTimeout cfg) l1 = inl err ->
     NewConfig Address_zero w cfg =
     ([dialed; EvChainID (NetworkTimeout cfg) l1],
      (Config_zero Address_zero,
       Some (fmt_Errorf_w "could not dial fetch L1 chain ID: " err)))) /\
  (forall l1 chainID err,
     ethclient_DialContext w (NetworkTimeout cfg) (L1RPCURL cfg) = inr l1 ->
     l1_ChainID w (NetworkTimeout cfg) l1 = inr chainID ->
     kcrypto_SignerFactoryFromConfig w (PrivateKey cfg) (Mnemonic cfg) (HDPath cfg)
       (SignerCLIConfig cfg) = inl err ->
     NewConfig Address_zero w cfg =
     ([dialed; EvChainID (NetworkTimeout cfg) l1; built],
      (Config_zero Address_zero, Some (fmt_Errorf_w "could not init signer: " err)))).
Proof.
  intros Hcheck dialed built.
  rewrite NewConfig_stages, Hcheck. cbv zeta.
  repeat split.
  - intros err ->. reflexivity.
  - intros l1 err -> ->. reflexivity.
  - intros l1 chainID err -> -> ->. reflexivity.
Qed.

(** X7: [NewConfig] succeeds exactly when [Check] passes and the dial, the
    chain-ID request on the dialed client and the signer construction all
    succeed. Its trace is then these three calls in this order, and the
    [Config] holds the dialed client, the reported chain ID, the signer the
    factory makes for that chain ID, the factory's address and the policy
    values of the [CLIConfig]. *)
Theorem NewConfig_succeeds_iff (w : World SgCfg Backend SignerFn Address)
    (cfg : CLIConfig SgCfg) (t : list (event SgCfg Backend))
    (c : Config Backend SignerFn Address) :
  NewConfig Address_zero w cfg = (t, (c, None)) <->
  Check cfg = None /\
  exists l1 chainID signerFactory from,
    ethclient_DialContext w (NetworkTimeout cfg) (L1RPCURL cfg) = inr l1 /\
    l1_ChainID w (NetworkTimeout cfg) l1 = inr chainID /\
    kcrypto_SignerFactoryFromConfig w (PrivateKey cfg) (Mnemonic cfg) (HDPath cfg)
      (SignerCLIConfig cfg) = inr (signerFactory, from) /\
    t = [ EvDial (NetworkTimeout cfg) (L1RPCURL cfg);
          EvChainID (NetworkTimeout cfg) l1;
          EvSignerFactory (PrivateKey cfg) (Mnemonic cfg) (HDPath cfg) (SignerCLIConfig cfg) ] /\
    c = {| cfg_Backend := Some l1;
           cfg_ResubmissionTimeout := ResubmissionTimeout cfg;
           cfg_ChainID := Some chainID;
           cfg_TxSendTimeout := TxSendTimeout cfg;
           cfg_TxNotInMempoolTimeout := TxNotInMempoolTimeout cfg;
           cfg_NetworkTimeout := NetworkTimeout cfg;
           cfg_ReceiptQueryInterval := ReceiptQueryInterval cfg;
           cfg_NumConfirmations := NumConfirmations cfg;
           cfg_SafeAbortNonceTooLowCount := SafeAbortNonceTooLowCount cfg;
           cfg_TxBufferSize := TxBufferSize cfg;
           cfg_Signer := Some (signerFactory chainID);
           cfg_From := from |}.
Proof.
  rewrite NewConfig_stages. cbv zeta. split.
  - destruct (Check cfg) as [err|]; [discriminate|].
    destruct (ethclient_DialContext w _ _) as [err|l1]; [discriminate|].
    destruct (l1_ChainID w _ l1) as [err|chainID] eqn:Hchain; [discriminate|].
    destruct (kcrypto_SignerFactoryFromConfig w _ _ _ _) as [err|[signerFactory from]]
      eqn:Hsigner; [discriminate|].
    intros [= <- <-]. split; [reflexivity|].
    exists l1, chainID, signerFactory, from. repeat split; assumption.
  - intros (-> & l1 & chainID & signerFactory & from & -> & -> & -> & -> & ->).
    reflexivity.
Qed.

(** X8: a [Config] that [NewConfig] returns with a nil error carries
    validated policy values: at least one confirmation, a nonce-too-low
    tolerance of at least one, and non-zero resubmission, network,
    receipt-query and not-in-mempool durations. *)
Theorem NewConfig_returns_validated_Config (w : World SgCfg Backend SignerFn Address)
    (cfg : CLIConfig SgCfg) (t : list (event SgCfg Backend))
    (c : Config Backend SignerFn Address) :
  NewConfig Address_zero w cfg = (t, (c, None)) ->
  (1 <= cfg_NumConfirmations c)%N /\ (1 <= cfg_SafeAbortNonceTooLowCount c)%N /\
  cfg_ResubmissionTimeout c <> 0%Z /\ cfg_NetworkTimeout c <> 0%Z /\
  cfg_ReceiptQueryInterval c <> 0%Z /\ cfg_TxNotInMempoolTimeout c <> 0%Z.
Proof.
  unfold NewConfig.
  destruct (Check cfg) as [err|] eqn:Hcheck; [discriminate|].
  destruct (NewConfig_body w cfg) as [t' [err|c']] eqn:Hbody; [discriminate|].
  intros [= -> ->].
  destruct (NewConfig_body_ok _ _ _ _ Hbody) as (l1 & chainID & sf & from & _ & _ & _ & _ & ->).
  destruct (Check_nil_inv cfg Hcheck) as (_ & Hconf & Hnet & Hres & Hrec & Hmem & Hsafe & _).
  simpl. repeat split; try assumption; lia.
Qed.

(** X9: whatever the collaborators answer, the calls of [NewConfig] are an
    initial part of dial, chain-ID request, signer construction, in that
    order: the trace is empty exactly when [Check] fails, the dial uses the
    configured URL under the network timeout, and the chain ID is asked of
    the client the dial returned, under the same timeout. *)
Theorem NewConfig_call_order (w : World SgCfg Backend SignerFn Address)
    (cfg : CLIConfig SgCfg) :
  let t := fst (NewConfig Address_zero w cfg) in
  let dialed := EvDial (NetworkTimeout cfg) (L1RPCURL cfg) in
  let built := EvSignerFactory (PrivateKey cfg) (Mnemonic cfg) (HDPath cfg)
                               (SignerCLIConfig cfg) in
  (t = [] <-> Check cfg <> None) /\
  (t = [] \/ t = [dialed] \/
   exists l1,
     ethclient_DialContext w (NetworkTimeout cfg) (L1RPCURL cfg) = inr l1 /\
     (t = [dialed; EvChainID (NetworkTimeout cfg) l1] \/
      t = [dialed; EvChainID (NetworkTimeout cfg) l1; built])).
Proof.
  rewrite NewConfig_stages. cbv zeta.
  destruct (Check cfg) as [err|].
  { simpl. split; [split; [discriminate|reflexivity]|now left]. }
  destruct (ethclient_DialContext w _ _) as [err|l1] eqn:Hdial.
  { simpl. split; [split; [discriminate|intros Hno; now contradiction Hno]|].
    right; now left. }
  assert (Hnonempty : forall (x y : event SgCfg Backend) rest,
             (x :: y :: rest = [] <-> @None error <> None)).
  { intros x y rest. split; [discriminate|intros Hno; now contradiction Hno]. }
  destruct (l1_ChainID w _ l1) as [err|chainID].
  { simpl. split; [apply Hnonempty|].
    right; right. exists l1. split; [reflexivity|now left]. }
  destruct (kcrypto_SignerFactoryFromConfig w _ _ _ _) as [err|[signerFactory from]];
    simpl; (split; [apply Hnonempty|]);
    right; right; exists l1; (split; [reflexivity|now right]).
Qed.

End NewConfigMore.

Lemma NewConfig_error_comes_with_zero_Config_witness :
  fst (snd (NewConfig 0%N (failing_World 0) default_CLIConfig)) = Config_zero 0%N.
Proof.
  apply NewConfig_error_comes_with_zero_Config. discriminate.
Defined.

Lemma NewConfig_stops_at_first_failure_witness :
  NewConfig 0%N (failing_World 1) default_CLIConfig =
  ( [ EvDial (2 * Second) "http://localhost:8545";
      EvChainID (2 * Second) "http://localhost:8545" ],
    ( Config_zero 0%N,
      Some (fmt_Errorf_w "could not dial fetch L1 chain ID: "
              (errors_New "context deadline exceeded")) ) ).
Proof.
  refine (proj1 (proj2 (NewConfig_stops_at_first_failure 0%N (failing_World 1)
                          default_CLIConfig eq_refl))
            "http://localhost:8545" (errors_New "context deadline exceeded") eq_refl eq_refl).
Defined.

Lemma NewConfig_returns_validated_Config_witness :
  exists t c,
    NewConfig 0%N sample_World default_CLIConfig = (t, (c, None)) /\
    (1 <= cfg_NumConfirmations c)%N /\ cfg_NetworkTimeout c <> 0%Z.
Proof.
  eexists _, _. split; [reflexivity|].
  pose proof (NewConfig_returns_validated_Config 0%N sample_World default_CLIConfig _ _ eq_refl)
    as (Hconf & _ & _ & Hnet & _).
  split; assumption.
Defined.

(** * Further properties of the flag set *)

Lemma string_app_assoc (a b c : string) : (a ++ b) ++ c = a ++ (b ++ c).
Proof.
  induction a as [|x a IH]; [reflexivity|].
  change (String x ((a ++ b) ++ c) = String x (a ++ (b ++ c))).
  now rewrite IH.
Qed.

Lemma prefix_app (p s : string) : String.prefix p (p ++ s) = true.
Proof.
  induction p as [|x p IH]; [now destruct s|].
  change (String.prefix (String x p) (String x (p ++ s)) = true).
  simpl. destruct (ascii_dec x x) as [_|Hne]; [exact IH|now contradiction Hne].
Qed.

Lemma PrefixEnvVar_inj (prefix s1 s2 : string) :
  PrefixEnvVar prefix s1 = PrefixEnvVar prefix s2 -> s1 = s2.
Proof.
  unfold PrefixEnvVar. intros Heq.
  apply String.app_inj in Heq. now injection Heq.
Qed.

(** X10: a variable named by [PrefixEnvVar] starts with the prefix, so the
    screen of [validateEnvVars] for that prefix sees it; under one prefix
    different suffixes name different variables; prefixing twice is prefixing
    once with the joined suffix; and [PrefixEnvVarV2] is that one name in a
    slice. *)
Theorem PrefixEnvVar_composes (prefix a b : string) :
  strings_HasPrefix (PrefixEnvVar prefix a) prefix = true /\
  (PrefixEnvVar prefix a = PrefixEnvVar prefix b -> a = b) /\
  PrefixEnvVar (PrefixEnvVar prefix a) b = PrefixEnvVar prefix (PrefixEnvVar a b) /\
  PrefixEnvVarV2 prefix a = [PrefixEnvVar prefix a].
Proof.
  repeat split.
  - apply prefix_app.
  - apply PrefixEnvVar_inj.
  - unfold PrefixEnvVar. rewrite !string_app_assoc. reflexivity.
Qed.

Section CLIFlagsMore.

Context {SgCfg : Type} `{SignerClient SgCfg}.

(** X11: whatever the prefix, the eleven flags [CLIFlags] declares before
    the signer client's have pairwise different names and pairwise different
    environment variables. *)
Theorem CLIFlags_own_flags_distinct (envPrefix : string) :
  exists own,
    CLIFlags envPrefix = (own ++ signer_CLIFlags envPrefix)%list /\
    List.length own = 11%nat /\
    NoDup (List.map flag_Name own) /\
    NoDup (List.map flag_EnvVar own).
Proof.
  eexists. split; [reflexivity|]. split; [reflexivity|]. split.
  - apply (bool_decide_unpack _). vm_compute. exact I.
  - change (NoDup (PrefixEnvVar envPrefix <$> List.map snd txmgr_flag_table)).
    apply NoDup_fmap_2_strong.
    + intros s1 s2 _ _. apply PrefixEnvVar_inj.
    + apply (bool_decide_unpack _). vm_compute. exact I.
Qed.

End CLIFlagsMore.

(** * Further properties of the environment-variable screen *)

Lemma strings_Split_nonempty (s : string) (sep : ascii) : strings_Split s sep <> [].
Proof.
  destruct s as [|c rest]; simpl; [discriminate|].
  destruct (Ascii.eqb c sep); [discriminate|].
  destruct (strings_Split rest sep); discriminate.
Qed.

Lemma strings_Split_join (s : string) (sep : ascii) :
  join_pieces (strings_Split s sep) sep = s.
Proof.
  induction s as [|c rest IH]; [reflexivity|].
  pose proof (strings_Split_nonempty rest sep) as Hne.
  simpl. destruct (Ascii.eqb_spec c sep) as [->|_].
  - destruct (strings_Split rest sep) as [|piece pieces]; [now contradiction Hne|].
    cbn [join_pieces] in *. now rewrite IH.
  - destruct (strings_Split rest sep) as [|piece pieces]; [now contradiction Hne|].
    destruct pieces as [|next pieces]; cbn [join_pieces] in *; now rewrite <- IH.
Qed.

Lemma strings_Split_length (s : string) (sep : ascii) :
  List.length (strings_Split s sep) = Datatypes.S (count_byte sep s).
Proof.
  induction s as [|c rest IH]; [reflexivity|].
  simpl. destruct (Ascii.eqb c sep); simpl; [now rewrite IH|].
  destruct (strings_Split rest sep); simpl in *; [discriminate|exact IH].
Qed.

Lemma strings_Split_pieces_clean (s : string) (sep : ascii) :
  Forall (fun piece => count_byte sep piece = 0%nat) (strings_Split s sep).
Proof.
  induction s as [|c rest IH]; simpl; [now repeat constructor|].
  destruct (Ascii.eqb c sep) eqn:Hc; [now constructor|].
  destruct (strings_Split rest sep) as [|piece pieces]; [repeat constructor; simpl; now rewrite Hc|].
  apply Forall_cons in IH as [Hpiece Hpieces].
  constructor; [|exact Hpieces]. simpl. now rewrite Hc.
Qed.

(** X12: splitting never yields an empty slice, so the guard on
    [len(parts) == 0] in [validateEnvVars] never fires; there is one piece more
    than there are separators, no piece contains the separator, and the pieces
    joined by the separator give the entry back. *)
Theorem strings_Split_round_trip (s : string) (sep : ascii) :
  strings_Split s sep <> [] /\
  List.length (strings_Split s sep) = Datatypes.S (count_byte sep s) /\
  Forall (fun piece => count_byte sep piece = 0%nat) (strings_Split s sep) /\
  join_pieces (strings_Split s sep) sep = s.
Proof.
  split; [apply strings_Split_nonempty|].
  split; [apply strings_Split_length|].
  split; [apply strings_Split_pieces_clean|apply strings_Split_join].
Qed.

(** The loop as a filter. *)
Lemma validateEnvVars_filter (prefix : string) (providedEnvVars : list string)
    (definedEnvVars : gset string) :
  validateEnvVars prefix providedEnvVars definedEnvVars =
  List.filter (unknown_env_var prefix definedEnvVars) providedEnvVars.
Proof.
  unfold validateEnvVars. now rewrite validateEnvVars_loop.
Qed.

Lemma filter_filter_same {A} (keep : A -> bool) (l : list A) :
  List.filter keep (List.filter keep l) = List.filter keep l.
Proof.
  induction l as [|x l IH]; simpl; [reflexivity|].
  destruct (keep x) eqn:Hx; simpl; [rewrite Hx, IH|]; auto.
Qed.

Lemma filter_sublist {A} (keep : A -> bool) (l : list A) :
  List.filter keep l `sublist_of` l.
Proof.
  induction l as [|x l IH]; simpl; [constructor|].
  destruct (keep x); now constructor.
Qed.

Lemma filter_stronger_sublist {A} (keep keep' : A -> bool) (l : list A) :
  (forall x, keep' x = true -> keep x = true) ->
  List.filter keep' l `sublist_of` List.filter keep l.
Proof.
  intros Himpl. induction l as [|x l IH]; simpl; [constructor|].
  destruct (keep' x) eqn:Hx'.
  - rewrite (Himpl x Hx'). now constructor.
  - destruct (keep x); [now constructor|exact IH].
Qed.

(** X13: the screen of a concatenated environment is the concatenation of
    the screens: an entry is judged on its own, whatever surrounds it. *)
Theorem validateEnvVars_app (prefix : string) (first second : list string)
    (definedEnvVars : gset string) :
  validateEnvVars prefix (first ++ second) definedEnvVars =
  (validateEnvVars prefix first definedEnvVars ++
   validateEnvVars prefix second definedEnvVars)%list.
Proof.
  rewrite !validateEnvVars_filter. apply List.filter_app.
Qed.

(** X14: screening the reported entries again reports all of them. *)
Theorem validateEnvVars_idempotent (prefix : string) (providedEnvVars : list string)
    (definedEnvVars : gset string) :
  validateEnvVars prefix (validateEnvVars prefix providedEnvVars definedEnvVars)
    definedEnvVars
  = validateEnvVars prefix providedEnvVars definedEnvVars.
Proof.
  rewrite !validateEnvVars_filter. apply filter_filter_same.
Qed.

(** X15: defining more variables never adds a report: what is reported
    against the larger set is, in order, part of what is reported against the
    smaller one, which in turn is part of the provided entries. *)
Theorem validateEnvVars_antitone (prefix : string) (providedEnvVars : list string)
    (fewer more : gset string) :
  fewer ⊆ more ->
  validateEnvVars prefix providedEnvVars more
    `sublist_of` validateEnvVars prefix providedEnvVars fewer /\
  validateEnvVars prefix providedEnvVars fewer `sublist_of` providedEnvVars.
Proof.
  intros Hsub. rewrite !validateEnvVars_filter. split; [|apply filter_sublist].
  apply filter_stronger_sublist. intros envVar.
  unfold unknown_env_var. rewrite !andb_true_iff, !bool_decide_eq_true.
  intros [Hprefix Hnot]. split; [exact Hprefix|]. set_solver.
Qed.

(** X16: with the empty prefix the screen lets nothing through on the
    prefix test: every entry whose key is not defined is reported, and
    against an empty set of defined variables the whole environment is. *)
Theorem validateEnvVars_empty_prefix (providedEnvVars : list string)
    (definedEnvVars : gset string) :
  validateEnvVars "" providedEnvVars definedEnvVars =
    List.filter (fun envVar => bool_decide (env_key envVar ∉ definedEnvVars)) providedEnvVars /\
  validateEnvVars "" providedEnvVars ∅ = providedEnvVars.
Proof.
  assert (Hopen : forall s, String.prefix "" s = true) by (now intros [|c s]).
  rewrite !validateEnvVars_filter. split.
  - apply List.filter_ext. intros envVar. unfold unknown_env_var. now rewrite Hopen.
  - induction providedEnvVars as [|envVar later IH]; [reflexivity|].
    simpl. unfold unknown_env_var at 1. rewrite Hopen. simpl.
    rewrite bool_decide_eq_true_2 by set_solver. now rewrite IH.
Qed.

Lemma validateEnvVars_antitone_witness :
  validateEnvVars "KROMA" ["KROMA_A=1"; "HOME=/"; "KROMA_B=2"] {[ "KROMA_A"; "KROMA_C" ]}
    `sublist_of` validateEnvVars "KROMA" ["KROMA_A=1"; "HOME=/"; "KROMA_B=2"] {[ "KROMA_C" ]}.
Proof.
  refine (proj1 (validateEnvVars_antitone "KROMA" ["KROMA_A=1"; "HOME=/"; "KROMA_B=2"]
                   {[ "KROMA_C" ]} {[ "KROMA_A"; "KROMA_C" ]} _)).
  set_solver.
Defined.

(** * Properties of [cliFlagsToEnvVars] and [ValidateEnvVars] *)

(** The inner loop adds the elements of the slice to the set it is given. *)
Lemma cliFlagsToEnvVars_inner (envVars : list string) (definedEnvVars : gset string)
    (name : string) :
  name ∈ fold_left (fun defined envVar => {[ envVar ]} ∪ defined) envVars definedEnvVars <->
  name ∈ definedEnvVars \/ In name envVars.
Proof.
  revert definedEnvVars.
  induction envVars as [|envVar later IH]; intros definedEnvVars; simpl.
  - tauto.
  - rewrite IH, elem_of_union, elem_of_singleton. split.
    + intros [[->|Hin]|Hin]; [right; now left|now left|right; now right].
    + intros [Hin|[->|Hin]]; [left; now right|left; now left|now right].
Qed.

(** The outer loop, from any set. *)
Lemma cliFlagsToEnvVars_outer (flags : list FlagV2) (definedEnvVars : gset string)
    (name : string) :
  name ∈ fold_left
           (fun defined flag =>
              fold_left (fun defined envVar => {[ envVar ]} ∪ defined)
                        (v2_EnvVars flag) defined)
           flags definedEnvVars <->
  name ∈ definedEnvVars \/ exists flag, In flag flags /\ In name (v2_EnvVars flag).
Proof.
  revert definedEnvVars.
  induction flags as [|flag later IH]; intros definedEnvVars; simpl.
  - split; [now left|]. intros [Hin|(flag & [] & _)]. exact Hin.
  - rewrite IH, cliFlagsToEnvVars_inner. split.
    + intros [[Hin|Hin]|(other & Hother & Hname)].
      * now left.
      * right. exists flag. split; [now left|exact Hin].
      * right. exists other. split; [now right|exact Hname].
    + intros [Hin|(other & [<-|Hother] & Hname)].
      * left. now left.
      * left. now right.
      * right. exists other. now split.
Qed.

(** X17: the set [cliFlagsToEnvVars] builds holds a name exactly when some
    flag lists it among its [EnvVars]: every variable of every flag is
    collected, also when a flag has several, and nothing else is. *)
Theorem cliFlagsToEnvVars_collects (flags : list FlagV2) (name : string) :
  name ∈ cliFlagsToEnvVars flags <->
  exists flag, In flag flags /\ In name (v2_EnvVars flag).
Proof.
  unfold cliFlagsToEnvVars. rewrite cliFlagsToEnvVars_outer. split.
  - intros [Hin|Hflag]; [set_solver|exact Hflag].
  - intros Hflag. now right.
Qed.

(** X18: [ValidateEnvVars] logs one warning, "Unknown env var" with the
    prefix and the entry, for each entry of the environment whose key starts
    with the prefix and is listed by no flag, in the order of the environment;
    it logs nothing else, and never more warnings than there are entries. *)
Theorem ValidateEnvVars_warnings (prefix : string) (flags : list FlagV2)
    (os_Environ : list string) :
  ValidateEnvVars prefix flags os_Environ =
    List.map
      (fun envVar => mkWarn "Unknown env var" [("prefix", prefix); ("env_var", envVar)])
      (List.filter
         (fun envVar =>
            String.prefix prefix (env_key envVar) &&
            bool_decide (Forall (fun flag => env_key envVar ∉ v2_EnvVars flag) flags))
         os_Environ) /\
  (List.length (ValidateEnvVars prefix flags os_Environ) <= List.length os_Environ)%nat.
Proof.
  unfold ValidateEnvVars. rewrite validateEnvVars_filter. split.
  - f_equal. apply List.filter_ext. intros envVar. unfold unknown_env_var. f_equal.
    apply bool_decide_ext. rewrite cliFlagsToEnvVars_collects, Forall_forall. split.
    + intros Hnone flag Hflag Hname. apply Hnone. exists flag.
      split; [now apply list_elem_of_In|now apply list_elem_of_In].
    + intros Hnone (flag & Hflag & Hname).
      apply (Hnone flag); now apply list_elem_of_In.
  - rewrite List.length_map. apply List.filter_length_le.
Qed.

(** A string without [=] is its own key, also in front of more text. *)
Lemma env_key_clean (s : string) : no_equals_sign s = true -> env_key s = s.
Proof.
  unfold no_equals_sign.
  induction s as [|c s IH]; simpl; [reflexivity|].
  destruct (Ascii.eqb c "="); simpl; [discriminate|].
  intros Hclean. now rewrite IH.
Qed.

Lemma no_equals_sign_app (a b : string) :
  no_equals_sign a = true -> no_equals_sign b = true -> no_equals_sign (a ++ b) = true.
Proof.
  unfold no_equals_sign. intros Ha Hb.
  induction a as [|c a IH]; [exact Hb|].
  change (String c a ++ b) with (String c (a ++ b)).
  simpl in *. apply andb_true_iff in Ha as [Hc Ha].
  rewrite Hc. now apply IH.
Qed.

Lemma env_key_of_prefixed_entry (prefix suffix value : string) :
  no_equals_sign prefix = true -> no_equals_sign suffix = true ->
  env_key (PrefixEnvVar prefix suffix ++ "=" ++ value) = PrefixEnvVar prefix suffix.
Proof.
  intros Hprefix Hsuffix.
  apply (env_key_of_entry (PrefixEnvVar prefix suffix) value).
  apply env_key_clean. unfold PrefixEnvVar.
  apply no_equals_sign_app; [exact Hprefix|].
  now apply (no_equals_sign_app "_" suffix).
Qed.

(** X19: take a prefix and a suffix without [=], and an entry that sets the
    variable [PrefixEnvVar prefix suffix]. If some flag was declared with
    [PrefixEnvVarV2 prefix suffix], [ValidateEnvVars] logs no warning for the
    entry; if no flag lists the variable and the entry is in the environment,
    it does. *)
Theorem ValidateEnvVars_declared_or_warned (prefix suffix value : string)
    (flags : list FlagV2) (os_Environ : list string) :
  no_equals_sign prefix = true ->
  no_equals_sign suffix = true ->
  let entry := PrefixEnvVar prefix suffix ++ "=" ++ value in
  let warning := mkWarn "Unknown env var" [("prefix", prefix); ("env_var", entry)] in
  ((exists flag, In flag flags /\ v2_EnvVars flag = PrefixEnvVarV2 prefix suffix) ->
   ~ In warning (ValidateEnvVars prefix flags os_Environ)) /\
  (In entry os_Environ ->
   (forall flag, In flag flags -> ~ In (PrefixEnvVar prefix suffix) (v2_EnvVars flag)) ->
   In warning (ValidateEnvVars prefix flags os_Environ)).
Proof.
  intros Hprefix Hsuffix entry warning.
  assert (Hkey : env_key entry = PrefixEnvVar prefix suffix)
    by now apply env_key_of_prefixed_entry.
  assert (Hwarned : In warning (ValidateEnvVars prefix flags os_Environ) <->
                    In entry os_Environ /\
                    unknown_env_var prefix (cliFlagsToEnvVars flags) entry = true).
  { unfold ValidateEnvVars. rewrite validateEnvVars_filter, List.in_map_iff. split.
    - intros (envVar & [= ->] & Hin). now apply List.filter_In in Hin.
    - intros Hin. exists entry. split; [reflexivity|]. now apply List.filter_In. }
  rewrite Hwarned. unfold unknown_env_var.
  rewrite Hkey, andb_true_iff, bool_decide_eq_true, cliFlagsToEnvVars_collects.
  split.
  - intros (flag & Hflag & Hvars) (_ & _ & Hnone). apply Hnone.
    exists flag. split; [exact Hflag|]. rewrite Hvars. now left.
  - intros Hin Hnone. split; [exact Hin|]. split.
    + apply prefix_app.
    + intros (flag & Hflag & Hname). now apply (Hnone flag).
Qed.

Lemma ValidateEnvVars_declared_or_warned_witness :
  ~ In (mkWarn "Unknown env var"
          [("prefix", "KROMA_NODE"); ("env_var", "KROMA_NODE_L1_ETH_RPC=http://l1")])
       (ValidateEnvVars "KROMA_NODE"
          [ mkFlagV2 "l1" (PrefixEnvVarV2 "KROMA_NODE" "L1_ETH_RPC");
            mkFlagV2 "l2" ["KROMA_NODE_L2_ENGINE_RPC"; "L2_ENGINE_RPC"] ]
          [ "KROMA_NODE_L1_ETH_RPC=http://l1"; "KROMA_NODE_L1_RPC=http://typo" ]).
Proof.
  refine (proj1 (ValidateEnvVars_declared_or_warned "KROMA_NODE" "L1_ETH_RPC" "http://l1"
                   _ _ eq_refl eq_refl) _).
  eexists. split; [left; reflexivity|reflexivity].
Defined.

Example ValidateEnvVars_typo :
  ValidateEnvVars "KROMA_NODE"
    [ mkFlagV2 "l1" (PrefixEnvVarV2 "KROMA_NODE" "L1_ETH_RPC");
      mkFlagV2 "l2" ["KROMA_NODE_L2_ENGINE_RPC"; "L2_ENGINE_RPC"] ]
    [ "KROMA_NODE_L1_ETH_RPC=http://l1"; "KROMA_NODE_L1_RPC=http://typo";
      "L2_ENGINE_RPC=http://l2"; "KROMA_NODE_L2_ENGINE_RPC=http://l2" ]
  = [ mkWarn "Unknown env var"
        [("prefix", "KROMA_NODE"); ("env_var", "KROMA_NODE_L1_RPC=http://typo")] ].
Proof. vm_compute. reflexivity. Qed.

(** * The errors of [NewConfig] *)

Section NewConfigErrors.

Context {SgCfg : Type} `{SignerClient SgCfg}.
Context {Backend SignerFn Address : Type}.
Variable Address_zero : Address.

(** X20: every error of [NewConfig] is a wrapped one whose text tells the
    stage that failed: unwrapping it gives the error of [Check], of the dial,
    of the chain-ID request on the dialed client or of the signer
    construction, and its message is the stage's text followed by that
    error's message. *)
Theorem NewConfig_error_tells_stage (w : World SgCfg Backend SignerFn Address)
    (cfg : CLIConfig SgCfg) (e : error) :
  snd (snd (NewConfig Address_zero w cfg)) = Some e ->
  exists text inner,
    e = fmt_Errorf_w text inner /\
    Unwrap e = Some inner /\
    Error e = text ++ Error inner /\
    ((text = "invalid config: " /\ Check cfg = Some inner) \/
     (text = "could not dial eth client: " /\ Check cfg = None /\
      ethclient_DialContext w (NetworkTimeout cfg) (L1RPCURL cfg) = inl inner) \/
     (text = "could not dial fetch L1 chain ID: " /\ Check cfg = None /\
      exists l1,
        ethclient_DialContext w (NetworkTimeout cfg) (L1RPCURL cfg) = inr l1 /\
        l1_ChainID w (NetworkTimeout cfg) l1 = inl inner) \/
     (text = "could not init signer: " /\ Check cfg = None /\
      kcrypto_SignerFactoryFromConfig w (PrivateKey cfg) (Mnemonic cfg) (HDPath cfg)
        (SignerCLIConfig cfg) = inl inner)).
Proof.
  rewrite NewConfig_stages. cbv zeta.
  destruct (Check cfg) as [err|].
  { intros [= <-]. do 2 eexists. repeat split. now left. }
  destruct (ethclient_DialContext w _ _) as [err|l1] eqn:Hdial.
  { intros [= <-]. do 2 eexists. repeat split. right; left. now repeat split. }
  destruct (l1_ChainID w _ l1) as [err|chainID] eqn:Hchain.
  { intros [= <-]. do 2 eexists. repeat split. right; right; left.
    repeat split. now exists l1. }
  destruct (kcrypto_SignerFactoryFromConfig w _ _ _ _) as [err|[signerFactory from]]
    eqn:Hsigner; [|discriminate].
  intros [= <-]. do 2 eexists. repeat split. right; right; right. now repeat split.
Qed.

End NewConfigErrors.

Lemma NewConfig_error_tells_stage_witness :
  exists text inner,
    fmt_Errorf_w "could not init signer: " (errors_New "invalid private key")
    = fmt_Errorf_w text inner /\
    Error (fmt_Errorf_w "could not init signer: " (errors_New "invalid private key"))
    = text ++ Error inner.
Proof.
  assert (Hfails : snd (snd (NewConfig 0%N (failing_World 2) default_CLIConfig))
                   = Some (fmt_Errorf_w "could not init signer: "
                             (errors_New "invalid private key")))
    by reflexivity.
  destruct (NewConfig_error_tells_stage 0%N (failing_World 2) default_CLIConfig _ Hfails)
    as (text & inner & Heq & _ & Hmsg & _).
  exists text, inner. split; assumption.
Defined.
